(** * pushkin-cli, [src/commands/prep/index.js]: the prep command

    A shallow embedding of the build orchestration of the prep command and
    the properties of its specification.

    The JavaScript is callback code on Node's event loop.  It is modelled as
    - synchronous code in a small state-and-exception monad [M] (a [throw]
      keeps every mutation made before it);
    - every asynchronous call ([fs.readFile], [fs.writeFile], [fs.rename],
      [fs.unlink], [exec]) as an entry of the list of pending operations
      [pending], which records the continuation and the variables it closes
      over;
    - the event loop as [step]: the environment picks a pending operation and
      says how it ended, and the continuation runs to completion.

    What is observed of a run is the list [out]: the subprocesses launched,
    the calls of the top-level callback, and exceptions nobody caught.
    Console output is not modelled.

    Files that the code only reads through [JSON.parse] or [jsYaml.safeLoad]
    and only writes through [JSON.stringify] or [jsYaml.safeDump] are
    modelled by the document they hold ([docfile]): the text codecs are
    outside this program and taken as lossless on documents.
    [front-end/src/experiments.js], which the code edits line by line, is
    modelled as text.  Paths are not normalised, and a write to a file of
    the core directory succeeds unless the environment says otherwise.

    In three places the source passes a callback to [execSync], which takes
    none.  The model has both readings of those calls ([execSync_arg3]); the
    properties say which one they are about. *)

From stdpp Require Import gmap strings list pretty.
From Stdlib Require Import ZArith Lia Ascii.

Local Open Scope string_scope.
Local Open Scope list_scope.
Set Warnings "-register-all".

(** ** JavaScript values *)

Module JS.

(** The values JSON and YAML documents are made of. *)
Inductive value :=
| VUndef
| VNull
| VBool (b : bool)
| VNum (z : Z)
| VStr (s : string)
| VArr (l : list value)
| VObj (o : list (string * value)).

(** An object is the list of its own properties in insertion order. *)
Abbreviation object := (list (string * value)).

Fixpoint obj_get (k : string) (o : object) : value :=
  match o with
  | [] => VUndef
  | (k', v) :: r => if String.eqb k k' then v else obj_get k r
  end.

(** [o[k] = v]: an existing property keeps its place. *)
Fixpoint obj_set (k : string) (v : value) (o : object) : object :=
  match o with
  | [] => [(k, v)]
  | (k', v') :: r =>
      if String.eqb k k' then (k, v) :: r else (k', v') :: obj_set k v r
  end.

(** [delete o[k]] *)
Fixpoint obj_del (k : string) (o : object) : object :=
  match o with
  | [] => []
  | (k', v') :: r =>
      if String.eqb k k' then obj_del k r else (k', v') :: obj_del k r
  end.

Definition keys (o : object) : list string := map fst o.

(** ToBoolean *)
Definition truthy (v : value) : bool :=
  match v with
  | VUndef | VNull => false
  | VBool b => b
  | VNum z => negb (Z.eqb z 0)
  | VStr s => negb (String.eqb s "")
  | VArr _ | VObj _ => true
  end.

Definition nl : string := String "010"%char EmptyString.
Definition tab : string := String "009"%char EmptyString.

Fixpoint join (sep : string) (l : list string) : string :=
  match l with
  | [] => ""
  | [x] => x
  | x :: r => x +:+ sep +:+ join sep r
  end.

(** [s.split(c)] for a separator of one character. *)
Fixpoint split_on (c : ascii) (s : string) : list string :=
  match s with
  | EmptyString => [""]
  | String a r =>
      if Ascii.eqb a c then "" :: split_on c r
      else match split_on c r with
           | [] => [String a ""]
           | w :: ws => String a w :: ws
           end
  end.

Definition is_space (a : ascii) : bool :=
  match a with
  | " "%char | "009"%char | "010"%char | "011"%char | "012"%char | "013"%char => true
  | _ => false
  end.

Fixpoint trim_start (s : string) : string :=
  match s with
  | String a r => if is_space a then trim_start r else s
  | EmptyString => ""
  end.

Fixpoint trim_end (s : string) : string :=
  match s with
  | EmptyString => ""
  | String a r =>
      match trim_end r with
      | EmptyString => if is_space a then "" else String a ""
      | r' => String a r'
      end
  end.

(** [s.trim()] *)
Definition trim (s : string) : string := trim_end (trim_start s).

Fixpoint chars (s : string) : list string :=
  match s with
  | EmptyString => []
  | String a r => String a "" :: chars r
  end.

Definition indexed (l : list value) : object :=
  imap (fun i x => (pretty i, x)) l.

(** The own enumerable properties, as [Object.keys] and the spread
    [{...v}] see them. *)
Definition own_entries (v : value) : object :=
  match v with
  | VObj o => o
  | VArr l => indexed l
  | VStr s => indexed (map VStr (chars s))
  | _ => []
  end.

(** ToString, as a template literal applies it. *)
Fixpoint to_str (v : value) : string :=
  match v with
  | VUndef => "undefined"
  | VNull => "null"
  | VBool true => "true"
  | VBool false => "false"
  | VNum z => pretty z
  | VStr s => s
  | VArr l =>
      join "," (map (fun x => match x with
                              | VUndef | VNull => ""
                              | _ => to_str x
                              end) l)
  | VObj _ => "[object Object]"
  end.

(** What is thrown, or handed to a callback as its error. *)
Inductive error :=
| Err (name msg : string)     (* an Error object *)
| ErrText (s : string).       (* a bare string *)

Definition render (e : error) : string :=
  match e with
  | Err n m => n +:+ ": " +:+ m
  | ErrText s => s
  end.

(** [new Error(msg)] *)
Definition new_Error (msg : string) : error := Err "Error" msg.
Definition TypeError (msg : string) : error := Err "TypeError" msg.

(** The value of a decimal digit, from its character code. *)
Definition digit_of (a : ascii) : option nat :=
  let code := nat_of_ascii a in
  if Nat.leb 48 code && Nat.leb code 57 then Some (code - 48) else None.

Fixpoint digits (s : string) (acc : nat) : option nat :=
  match s with
  | EmptyString => Some acc
  | String a r =>
      match digit_of a with
      | Some d => digits r (10 * acc + d)
      | None => None
      end
  end.

(** The array index a property name stands for: a decimal numeral in its
    canonical form. *)
Definition index_of (k : string) : option nat :=
  match k with
  | EmptyString => None
  | _ =>
      match digits k 0 with
      | Some i => if String.eqb (pretty i) k then Some i else None
      | None => None
      end
  end.

(** Member access [v.k]; it throws on [undefined] and [null]. *)
Definition prop (v : value) (k : string) : error + value :=
  match v with
  | VUndef | VNull =>
      inl (TypeError ("Cannot read property '" +:+ k +:+ "' of " +:+ to_str v))
  | VObj o => inr (obj_get k o)
  | VArr l =>
      inr (if String.eqb k "length" then VNum (Z.of_nat (length l))
           else match index_of k with
                | Some i => default VUndef (l !! i)
                | None => VUndef
                end)
  | VStr s =>
      inr (if String.eqb k "length" then VNum (Z.of_nat (String.length s))
           else match index_of k with
                | Some i => default VUndef (VStr <$> chars s !! i)
                | None => VUndef
                end)
  | _ => inr VUndef
  end.

(** [path.join(a, b)], without normalisation. *)
Definition path_join (a b : string) : string := a +:+ "/" +:+ b.

End JS.

Import JS.

(** ** The files the command works on *)

(** A file holding a JSON or YAML document: the document it parses to, or
    text the parser rejects. *)
Inductive docfile :=
| Unparsable
| Document (v : value).

(** [readFileSync] followed by [JSON.parse] or [jsYaml.safeLoad]; [None] is
    a file that cannot be read. *)
Definition load (f : option docfile) : error + value :=
  match f with
  | Some (Document v) => inr v
  | Some Unparsable => inl (Err "SyntaxError" "Unexpected token")
  | None => inl (Err "Error" "ENOENT: no such file or directory")
  end.

(** A component's source directory [packDir], as far as [packAndInstall]
    touches it. *)
Record pkgdir := PkgDir {
  manifest : option docfile;      (* package.json *)
  backup : option docfile;        (* package.json.bak *)
  tarballs : gset string;         (* what npm pack left behind *)
  writable : bool;
}.

(** An entry of a staging directory: its name and whether [lstat] calls it a
    regular file. *)
Abbreviation dirent := (string * bool)%type.

(** The core directory [coreDir]. *)
Record core_dir := CoreDir {
  controllers_json : option docfile;       (* api/src/controllers.json *)
  experiments_js : option string;          (* front-end/src/experiments.js *)
  api_temp : option (list dirent);         (* api/tempPackages *)
  fe_temp : option (list dirent);          (* front-end/tempPackages *)
  compose : option docfile;                (* docker-compose.dev.yml *)
}.

(** An entry of [experimentsDir]. *)
Record rootent := RootEnt {
  ent_name : string;
  ent_is_dir : bool;
  ent_config : option docfile;             (* config.yaml *)
}.

Record world := World {
  core : core_dir;
  pkgs : gmap string pkgdir;
  root : option (list rootent);            (* None: experimentsDir unreadable *)
}.

Inductive staging := ApiTemp | FrontEndTemp.

Definition staging_sub (d : staging) : string :=
  match d with
  | ApiTemp => "api/tempPackages"
  | FrontEndTemp => "front-end/tempPackages"
  end.

Definition staging_get (d : staging) (c : core_dir) : option (list dirent) :=
  match d with ApiTemp => api_temp c | FrontEndTemp => fe_temp c end.

Definition staging_put (d : staging) (l : option (list dirent)) (c : core_dir)
  : core_dir :=
  match d with
  | ApiTemp => CoreDir (controllers_json c) (experiments_js c) l (fe_temp c) (compose c)
  | FrontEndTemp => CoreDir (controllers_json c) (experiments_js c) (api_temp c) l (compose c)
  end.

Definition put_controllers_json (f : option docfile) (c : core_dir) : core_dir :=
  CoreDir f (experiments_js c) (api_temp c) (fe_temp c) (compose c).
Definition put_experiments_js (f : option string) (c : core_dir) : core_dir :=
  CoreDir (controllers_json c) f (api_temp c) (fe_temp c) (compose c).
Definition put_compose (f : option docfile) (c : core_dir) : core_dir :=
  CoreDir (controllers_json c) (experiments_js c) (api_temp c) (fe_temp c) f.

(** ** The state of a run *)

(** The closure of one [packAndInstall] call is its two directories and its
    callback; the callback is the one [prepApi] passes for a controller or
    the one [prepWeb] passes. *)
Inductive pk_cont :=
| KController (api : nat) (expDir fullContrLoc : string) (mountPath : value)
| KWebPage (expDir : string) (expConfig : value).

Record pk := Pk {
  packDir : string;
  installDir : staging;
  pk_k : pk_cont;
}.

Inductive core_part := Api | FrontEnd.

(** The asynchronous operations in flight, each with the variables its
    callback closes over. *)
Inductive op :=
| ReadManifest (c : pk)
| WriteManifest (c : pk) (uniqueName : string) (packageJson : value)
| NpmRunBuild (c : pk) (uniqueName : string)
| MovePack (c : pk) (uniqueName packedFileName : string)
| UnlinkManifest (c : pk) (uniqueName : string)
| RestoreManifest (c : pk) (uniqueName : string)
| DockerBuild (expDir workerName : string) (workerService : value)
| WriteControllers (data : value)
| WriteCompose (data : value)
| CoreBuild (part : core_part) (episode : nat).

Inductive event :=
| Shell (cmd cwd : string)         (* a subprocess is launched *)
| Callback (err : option error)    (* the top-level callback is called *)
| Uncaught (e : error)             (* an exception reaches the event loop *)
| Thrown (e : error).              (* the exported function throws *)

(** The variables of one [prepApi] call. *)
Record api_closure := ApiClosure {
  a_tasks : list bool;
  contrListAppendix : list value;
}.

Record state := State {
  w : world;
  pending : list op;
  drawn : nat;                                 (* uuid() calls so far *)
  apis : list api_closure;
  tasks : list bool;
  newApiControllers : list value;
  newWebPageIncludes : list (string * string); (* moduleName, listAppendix *)
  newWorkerServices : list (string * value);   (* serviceName, serviceContent *)
  preppings : list Z;                          (* one [prepping] per linking *)
  out : list event;
}.

Definition set_w (f : world -> world) (s : state) : state :=
  State (f (w s)) (pending s) (drawn s) (apis s) (tasks s) (newApiControllers s)
        (newWebPageIncludes s) (newWorkerServices s) (preppings s) (out s).
Definition set_pending (f : list op -> list op) (s : state) : state :=
  State (w s) (f (pending s)) (drawn s) (apis s) (tasks s) (newApiControllers s)
        (newWebPageIncludes s) (newWorkerServices s) (preppings s) (out s).
Definition set_drawn (f : nat -> nat) (s : state) : state :=
  State (w s) (pending s) (f (drawn s)) (apis s) (tasks s) (newApiControllers s)
        (newWebPageIncludes s) (newWorkerServices s) (preppings s) (out s).
Definition set_apis (f : list api_closure -> list api_closure) (s : state) : state :=
  State (w s) (pending s) (drawn s) (f (apis s)) (tasks s) (newApiControllers s)
        (newWebPageIncludes s) (newWorkerServices s) (preppings s) (out s).
Definition set_tasks (f : list bool -> list bool) (s : state) : state :=
  State (w s) (pending s) (drawn s) (apis s) (f (tasks s)) (newApiControllers s)
        (newWebPageIncludes s) (newWorkerServices s) (preppings s) (out s).
Definition set_newApiControllers (f : list value -> list value) (s : state) : state :=
  State (w s) (pending s) (drawn s) (apis s) (tasks s) (f (newApiControllers s))
        (newWebPageIncludes s) (newWorkerServices s) (preppings s) (out s).
Definition set_newWebPageIncludes
  (f : list (string * string) -> list (string * string)) (s : state) : state :=
  State (w s) (pending s) (drawn s) (apis s) (tasks s) (newApiControllers s)
        (f (newWebPageIncludes s)) (newWorkerServices s) (preppings s) (out s).
Definition set_newWorkerServices
  (f : list (string * value) -> list (string * value)) (s : state) : state :=
  State (w s) (pending s) (drawn s) (apis s) (tasks s) (newApiControllers s)
        (newWebPageIncludes s) (f (newWorkerServices s)) (preppings s) (out s).
Definition set_preppings (f : list Z -> list Z) (s : state) : state :=
  State (w s) (pending s) (drawn s) (apis s) (tasks s) (newApiControllers s)
        (newWebPageIncludes s) (newWorkerServices s) (f (preppings s)) (out s).
Definition set_out (f : list event -> list event) (s : state) : state :=
  State (w s) (pending s) (drawn s) (apis s) (tasks s) (newApiControllers s)
        (newWebPageIncludes s) (newWorkerServices s) (preppings s) (f (out s)).

Definition set_core (f : core_dir -> core_dir) : state -> state :=
  set_w (fun x => World (f (core x)) (pkgs x) (root x)).
Definition set_pkgs (f : gmap string pkgdir -> gmap string pkgdir) : state -> state :=
  set_w (fun x => World (core x) (f (pkgs x)) (root x)).

(** The state a run starts from. *)
Definition init (x : world) : state := State x [] 0 [] [] [] [] [] [] [].

(** ** Synchronous code: state and exceptions *)

Definition M (A : Type) : Type := state -> (error + A) * state.

#[global] Instance M_ret : MRet M := fun A a s => (inr a, s).
#[global] Instance M_bind : MBind M := fun A B f m s =>
  match m s with
  | (inl e, s') => (inl e, s')
  | (inr a, s') => f a s'
  end.

Definition throw {A} (e : error) : M A := fun s => (inl e, s).
Definition gets {A} (f : state -> A) : M A := fun s => (inr (f s), s).
Definition modify (f : state -> state) : M unit := fun s => (inr (), f s).
Definition lift {A} (x : error + A) : M A := fun s => (x, s).

(** [try { body } catch (e) { handler }] *)
Definition try_catch {A} (body : M A) (handler : error -> M A) : M A := fun s =>
  match body s with
  | (inl e, s') => handler e s'
  | r => r
  end.

(** [l.forEach(f)] *)
Fixpoint for_each {A} (f : A -> M unit) (l : list A) : M unit :=
  match l with
  | [] => mret ()
  | x :: r => f x ;; for_each f r
  end.

Definition emit (e : event) : M unit := modify (set_out (fun o => o ++ [e])).
Definition defer (o : op) : M unit := modify (set_pending (fun p => p ++ [o])).

(** [try { body }] with the outcome handed on, for a [catch] that returns:
    what follows the [try] runs outside it. *)
Definition attempt {A} (body : M A) : M (error + A) := fun s =>
  match body s with
  | (r, s') => (inr r, s')
  end.

(** Code without state, such as the handling of a document in memory. *)
Definition rbind {A B} (m : error + A) (f : A -> error + B) : error + B :=
  match m with
  | inl e => inl e
  | inr a => f a
  end.

Notation "'let?' x := m 'in' k" := (rbind m (fun x => k))
  (at level 10, x name, k at level 200).

(** ** The environment *)

(** [child_process.execSync(command[, options])] runs the command to its end,
    returns its output and throws if it fails.  It has no callback
    parameter.  The source passes it a callback as third argument in three
    places, written like the callback of [exec].  [Ignored] is what Node
    does with that argument; [Invoked] is the reading those call sites are
    written for, where the callback is called with the command's result
    before [execSync] returns.  The model takes the reading as a parameter,
    so that every result says which it depends on. *)
Inductive execSync_arg3 := Ignored | Invoked.

(** How an operation ended. *)
Inductive outcome :=
| Done (stdout : string)
| Failed (why : error).

(** What the environment says when an operation completes: how it ended, and
    how the commands that its callback runs with [execSync] end, in the
    order of the calls. *)
Record reply := Reply {
  result : outcome;
  nested : nat -> outcome;
}.

Record env := Env {
  arg3 : execSync_arg3;
  uuid : nat -> string;               (* the n-th value of uuid() *)
  npm_uninstall : string -> outcome;  (* how [npm uninstall m --save] ends *)
  coreDir : string;
  experimentsDir : string;
}.

(** ** UniqueNamer *)

(** [uuid().split('-').join('')] *)
Definition uuid_hex (u : string) : string := join "" (split_on "-" u).

Definition component_prefix : string := "pushkinComponent".
Definition worker_prefix : string := "pushkinworker".

(** The name [packAndInstall] gives a component (line 25). *)
Definition component_name (u : string) : string := component_prefix +:+ uuid_hex u.
(** The name [prepWorker] gives a worker image (line 193). *)
Definition worker_name (u : string) : string := worker_prefix +:+ uuid_hex u.

(** ** The task counter

    [tasks] is an array used as a counter: [startTask] pushes, [finishTask]
    pops and tests the length. *)
Definition push_task (t : list bool) : list bool := t ++ [true].
Definition pop_task (t : list bool) : list bool := removelast t.
Definition drained (t : list bool) : bool := Nat.eqb (length t) 0.

(** ** Documents in memory *)

(** The test of line 136:
    [serviceContent.labels && serviceContent.labels.isPushkinWorker]. *)
Definition is_worker (serviceContent : value) : error + bool :=
  let? labels := prop serviceContent "labels" in
  if truthy labels
  then let? m := prop labels "isPushkinWorker" in inr (truthy m)
  else inr false.

(** The loop of lines 134-138 on an object: [ks] is the array
    [Object.keys] returned, [services] the object as the deletions so far
    left it. *)
Fixpoint sweep (ks : list string) (services : object) : error + object :=
  match ks with
  | [] => inr services
  | service :: r =>
      let? b := is_worker (obj_get service services) in
      sweep r (if b then obj_del service services else services)
  end.

(** The same loop on an array: [delete] leaves a hole. *)
Fixpoint sweep_array (l : list value) : error + list value :=
  match l with
  | [] => inr []
  | serviceContent :: r =>
      let? b := is_worker serviceContent in
      let? r' := sweep_array r in
      inr ((if b then VUndef else serviceContent) :: r')
  end.

(** Lines 134-138 for any value of [compFile.services].  The keys of a
    string are the indices of its characters, which have no labels. *)
Definition remove_workers (services : value) : error + value :=
  match services with
  | VUndef | VNull => inl (TypeError "Cannot convert undefined or null to object")
  | VObj o => let? o' := sweep (keys o) o in inr (VObj o')
  | VArr l => let? l' := sweep_array l in inr (VArr l')
  | _ => inr services
  end.

(** [v.k = x] on a value that is already known: an object is updated in
    place, an array takes the property without serialising it. *)
Definition assign (v : value) (k : string) (x : value) : error + value :=
  match v with
  | VObj o => inr (VObj (obj_set k x o))
  | VArr l => inr (VArr l)
  | _ => inl (TypeError ("Cannot set property '" +:+ k +:+ "' of " +:+ to_str v))
  end.

Fixpoint dumpable (v : value) : bool :=
  match v with
  | VUndef => false
  | VArr l => forallb dumpable l
  | VObj o => forallb (fun kv => let '(_, x) := kv in dumpable x) o
  | _ => true
  end.

(** [jsYaml.safeDump] rejects [undefined]. *)
Definition safeDump (v : value) : error + value :=
  if dumpable v then inr v
  else inl (Err "YAMLException" "unacceptable kind of an object to dump").

(** [JSON.parse(data)] in the callback of [fs.readFile], which does not
    look at [err]: after a failed read [data] is [undefined]. *)
Definition JSON_parse (data : option docfile) : error + value :=
  match data with
  | Some (Document v) => inr v
  | _ => inl (Err "SyntaxError" "Unexpected token")
  end.

(** [getModuleList], on the text of the file (lines 68-73). *)
Definition getModuleList (text : string) : list value :=
  let data := trim text in
  flat_map (fun line =>
    match split_on " "%char line with
    | s0 :: rest =>
        if String.eqb s0 "import"
        then [match rest with s1 :: _ => VStr s1 | [] => VUndef end]
        else []
    | [] => []
    end) (split_on "010"%char data).

(** [includeInModuleList], on the text of the file (lines 76-83). *)
Definition includeInModuleList_text (importName listAppendix text : string)
  : string :=
  let data := trim text in
  let lineSplit := split_on "010"%char data in
  let allButEnd := take (length lineSplit - 1) lineSplit in
  "import " +:+ importName +:+ " from '" +:+ importName +:+ "';" +:+ nl +:+
  join nl allButEnd +:+ nl +:+
  tab +:+ listAppendix +:+ "," +:+ nl +:+
  "];".

Definition ENOENT : error := Err "Error" "ENOENT: no such file or directory".
Definition EACCES : error := Err "Error" "EACCES: permission denied".

(** [{ ...workerService, image: workerName }] and the labels of line 203. *)
Definition worker_serviceContent (workerService : value) (workerName : string)
  : object :=
  let serviceContent := obj_set "image" (VStr workerName) (own_entries workerService) in
  let old := obj_get "labels" serviceContent in
  let labels :=
    obj_set "isPushkinWorker" (VBool true)
            (own_entries (if truthy old then old else VObj [])) in
  obj_set "labels" (VObj labels) serviceContent.

(** ** The program *)

Section Prep.

Variable E : env.

Definition draw_uuid : M string :=
  n ← gets drawn;
  modify (set_drawn S);;
  mret (uuid E n).

(** [execSync(cmd, { cwd })] *)
Definition execSync (cmd cwd : string) (o : outcome) : M string :=
  emit (Shell cmd cwd);;
  match o with
  | Failed e => throw e
  | Done stdout => mret stdout
  end.

(** [execSync(cmd, { cwd }, cb)], see [execSync_arg3].  [effect] is what the
    command, when it succeeds, leaves in the files of the model. *)
Definition execSync_cb (cmd cwd : string) (o : outcome)
  (effect : string -> M unit) (cb : outcome -> M unit) : M unit :=
  emit (Shell cmd cwd);;
  match o with Done stdout => effect stdout | Failed _ => mret () end;;
  match arg3 E with
  | Ignored => match o with Failed e => throw e | Done _ => mret () end
  | Invoked => cb o
  end.

(** [exec(cmd, { cwd }, cb)]: the command is launched and [cb] is left
    pending as [o]. *)
Definition exec (cmd cwd : string) (o : op) : M unit :=
  emit (Shell cmd cwd);;
  defer o.

(** *** cleanUpSync (lines 92-141) *)

(** [try { execSync('npm uninstall ...') } catch (e) { console.error(...) }] *)
Definition uninstall (moduleName : value) (sub : string) : M unit :=
  try_catch
    (execSync ("npm uninstall " +:+ to_str moduleName +:+ " --save")
              (path_join (coreDir E) sub)
              (npm_uninstall E (to_str moduleName));;
     mret ())
    (fun e => mret ()).

(** [fs.unlinkSync] of the regular file [name] of a staging directory. *)
Definition staging_unlink (d : staging) (name : string) (c : core_dir) : core_dir :=
  staging_put d
    (filter (fun e : dirent => e <> (name, true)) <$> staging_get d c) c.

(** One of the two loops of lines 118-127. *)
Definition clean_staging (d : staging) : M unit :=
  l ← gets (fun s => staging_get d (core (w s)));
  match l with
  | None => throw ENOENT
  | Some entries =>
      for_each (fun tempPackage : dirent =>
        if snd tempPackage
        then modify (set_core (staging_unlink d (fst tempPackage)))
        else mret ()) entries
  end.

(** Lines 94-103: reset api controllers. *)
Definition reset_controllers : M unit :=
  f ← gets (fun s => controllers_json (core (w s)));
  oldContrList ← lift (load f);
  match oldContrList with
  | VArr l =>
      for_each (fun contr =>
        moduleName ← lift (prop contr "name");
        uninstall moduleName "api") l
  | _ => throw (TypeError "oldContrList.forEach is not a function")
  end;;
  modify (set_core (put_controllers_json (Some (Document (VArr []))))).

Definition empty_module_list : string := "export default [" +:+ nl +:+ "];".

(** Lines 105-113: reset web page dependencies. *)
Definition reset_pages : M unit :=
  t ← gets (fun s => experiments_js (core (w s)));
  oldPages ← match t with
             | Some text => mret (getModuleList text)
             | None => throw ENOENT
             end;
  for_each (fun pageModule => uninstall pageModule "front-end") oldPages;;
  modify (set_core (put_experiments_js (Some empty_module_list))).

(** Lines 115-128: remove tgz package files. *)
Definition remove_temp_files : M unit :=
  try_catch
    (clean_staging ApiTemp;;
     clean_staging FrontEndTemp)
    (fun e => mret ()).

(** Lines 130-140: remove workers from main docker compose file. *)
Definition remove_worker_services : M unit :=
  y ← gets (fun s => compose (core (w s)));
  compFile ← lift (load y);
  services ← lift (prop compFile "services");
  services' ← lift (remove_workers services);
  let compFile' := match compFile with
                   | VObj o => VObj (obj_set "services" services' o)
                   | _ => compFile
                   end in
  newCompData ← lift (safeDump compFile');
  modify (set_core (put_compose (Some (Document newCompData)))).

Definition cleanUpSync : M unit :=
  reset_controllers;;
  reset_pages;;
  remove_temp_files;;
  remove_worker_services.

(** *** The exported function: task management (lines 213-284) *)

(** [fail] of line 213. *)
Definition fail (reason : string) (err : error) : M unit :=
  emit (Callback (Some (new_Error (reason +:+ ": " +:+ render err)))).

Definition startTask : M unit := modify (set_tasks push_task).

(** [finishTask] of line 220, up to the call of [fs.writeFile] in line 227:
    the rest is the callback of that write, [linked]. *)
Definition finishTask : M unit :=
  modify (set_tasks pop_task);;
  t ← gets tasks;
  if drained t then
    l ← gets newApiControllers;
    defer (WriteControllers (VArr l))
  else mret ().

Definition includeInModuleList (importName listAppendix : string) : M unit :=
  t ← gets (fun s => experiments_js (core (w s)));
  match t with
  | None => throw ENOENT
  | Some text =>
      modify (set_core (put_experiments_js
        (Some (includeInModuleList_text importName listAppendix text))))
  end.

(** [compFile.services[serviceName] = serviceContent] (line 246). *)
Definition add_service (compFile : value) (workService : string * value)
  : error + value :=
  let? services := prop compFile "services" in
  let? services' := assign services (fst workService) (snd workService) in
  inr match compFile with
      | VObj o => VObj (obj_set "services" services' o)
      | _ => compFile
      end.

Fixpoint add_services (compFile : value) (l : list (string * value))
  : error + value :=
  match l with
  | [] => inr compFile
  | x :: r => let? c := add_service compFile x in add_services c r
  end.

Definition part_dir (p : core_part) : string :=
  match p with Api => "api" | FrontEnd => "front-end" end.
Definition part_staging (p : core_part) : staging :=
  match p with Api => ApiTemp | FrontEnd => FrontEndTemp end.

(** The callback of [exec('npm run build')] in lines 261-268 and 273-280.
    The [if] of lines 265 and 277 has no braces: it governs the
    [console.log] only, and [callback()] is called either way. *)
Definition core_built (p : core_part) (episode : nat) (r : reply) : M unit :=
  match result r with
  | Failed err =>
      fail (match p with
            | Api => "Failed to build core api"
            | FrontEnd => "Failed to build core front end"
            end) err
  | Done _ =>
      modify (set_preppings (alter (fun prepping => prepping - 1)%Z episode));;
      prepping ← gets (fun s => preppings s !! episode);
      (if negb (truthy (VNum (default 0%Z prepping)))
       then mret ()    (* console.log('Prepped successfully') *)
       else mret ());;
      emit (Callback None)
  end.

(** Lines 258-269 and 270-281. *)
Definition rebuild (p : core_part) (episode : nat) (installed : outcome) : M unit :=
  execSync_cb "npm install *" (path_join (coreDir E) (staging_sub (part_staging p)))
    installed (fun _ => mret ())
    (fun o =>
       match o with
       | Failed err =>
           fail (match p with
                 | Api => "Failed to install api packages"
                 | FrontEnd => "Failed to install web page packages"
                 end) err
       | Done _ =>
           exec "npm run build" (path_join (coreDir E) (part_dir p))
                (CoreBuild p episode)
       end).

Definition ReferenceError_e : error := Err "ReferenceError" "e is not defined".

(** The callback of the write of controllers.json (lines 227-282). *)
Definition linked (data : value) (r : reply) : M unit :=
  match result r with
  | Failed err => throw ReferenceError_e     (* fail(..., e): no e in scope *)
  | Done _ =>
      modify (set_core (put_controllers_json (Some (Document data))));;
      (* write out web page includes *)
      a ← attempt (l ← gets newWebPageIncludes;
                   for_each (fun include => includeInModuleList (fst include) (snd include)) l);
      match a with
      | inl e => fail "Failed to include web pages in front end" e
      | inr _ =>
          (* write out new compose file with worker services *)
          b ← attempt (y ← gets (fun s => compose (core (w s))); lift (load y));
          match b with
          | inl e => fail "Failed to load main docker compose file" e
          | inr compFile =>
              l ← gets newWorkerServices;
              compFile' ← lift (add_services compFile l);
              match safeDump compFile' with
              | inl e => fail "Failed to create new compose file without old workers" e
              | inr newCompData =>
                  defer (WriteCompose newCompData);;
                  (* rebuild the core api and front end *)
                  episode ← gets (fun s => length (preppings s));
                  modify (set_preppings (fun l => l ++ [2%Z]));;
                  rebuild Api episode (nested r 0);;
                  rebuild FrontEnd episode (nested r 1)
              end
          end
      end
  end.

(** The callback of the write of the compose file (lines 251-253). *)
Definition compose_written (data : value) (r : reply) : M unit :=
  match result r with
  | Failed err => throw ReferenceError_e
  | Done _ => modify (set_core (put_compose (Some (Document data))))
  end.

(** *** The callbacks the exported function passes (lines 307-333) *)

Definition api_prepped (expDir : string) (res : error + list value) : M unit :=
  match res with
  | inl err => fail ("Failed to prep api for " +:+ expDir) err
  | inr contrListAppendix =>
      modify (set_newApiControllers (fun l => l ++ contrListAppendix));;
      finishTask
  end.

Definition web_prepped (expDir : string) (res : error + string * string) : M unit :=
  match res with
  | inl err => fail ("Failed to prep web page for " +:+ expDir) err
  | inr webListAppendix =>
      modify (set_newWebPageIncludes (fun l => l ++ [webListAppendix]));;
      finishTask
  end.

Definition worker_prepped (expDir : string) (res : error + string * value) : M unit :=
  match res with
  | inl err => fail ("Failed to prep worker for " +:+ expDir) err
  | inr workerAppendix =>
      modify (set_newWorkerServices (fun l => l ++ [workerAppendix]));;
      finishTask
  end.

(** *** prepApi (lines 145-171) *)

(** [fail] of line 147. *)
Definition api_fail (expDir reason : string) (err : error) : M unit :=
  api_prepped expDir (inl (new_Error (reason +:+ ": " +:+ render err))).

Definition api_startTask (api : nat) : M unit :=
  modify (set_apis (alter (fun a =>
    ApiClosure (push_task (a_tasks a)) (contrListAppendix a)) api)).

(** [finishTask] of line 151. *)
Definition api_finishTask (api : nat) (expDir : string) : M unit :=
  modify (set_apis (alter (fun a =>
    ApiClosure (pop_task (a_tasks a)) (contrListAppendix a)) api));;
  a ← gets (fun s => apis s !! api);
  let a := default (ApiClosure [] []) a in
  if drained (a_tasks a)
  then api_prepped expDir (inr (contrListAppendix a))
  else mret ().

(** The callback of line 163. *)
Definition controller_packed (api : nat) (expDir fullContrLoc : string)
  (mountPath : value) (res : error + string) : M unit :=
  match res with
  | inl err =>
      api_fail expDir ("Failed on prepping API controller " +:+ fullContrLoc +:+ ":") err
  | inr moduleName =>
      modify (set_apis (alter (fun a =>
        ApiClosure (a_tasks a)
          (contrListAppendix a ++
             [VObj [("name", VStr moduleName); ("mountPath", mountPath)]])) api));;
      api_finishTask api expDir
  end.

(** *** prepWeb (lines 174-187): the callback of line 177 *)

Definition web_packed (expDir : string) (expConfig : value)
  (res : error + string) : M unit :=
  match res with
  | inl err =>
      web_prepped expDir (inl (ErrText ("Failed on prepping web page: " +:+ render err)))
  | inr moduleName =>
      experimentName ← lift (prop expConfig "experimentName");
      shortName ← lift (prop expConfig "shortName");
      logo ← lift (prop expConfig "logo");
      tagline ← lift (prop expConfig "tagline");
      duration ← lift (prop expConfig "duration");
      let modListAppendix :=
        "{ fullName: '" +:+ to_str experimentName +:+
        "', shortName: '" +:+ to_str shortName +:+
        "', module: " +:+ moduleName +:+
        ", logo: '" +:+ to_str logo +:+
        "', tagline: '" +:+ to_str tagline +:+
        "', duration: '" +:+ to_str duration +:+ "' }" in
      web_prepped expDir (inr (moduleName, modListAppendix))
  end.

(** *** packAndInstall (lines 8-62) *)

Definition pk_callback (c : pk) (res : error + string) : M unit :=
  match pk_k c with
  | KController api expDir fullContrLoc mountPath =>
      controller_packed api expDir fullContrLoc mountPath res
  | KWebPage expDir expConfig => web_packed expDir expConfig res
  end.

Definition installDir_path (c : pk) : string :=
  path_join (coreDir E) (staging_sub (installDir c)).

(** [fail] of line 10. *)
Definition pk_fail (c : pk) (reason : string) (err : error) : M unit :=
  pk_callback c (inl (new_Error
    (reason +:+ nl +:+ tab +:+ "(" +:+ packDir c +:+ ", " +:+ installDir_path c +:+ "):"
     +:+ nl +:+ tab +:+ tab +:+ render err))).

Definition packageJsonPath (c : pk) : string := path_join (packDir c) "package.json".

(** [fs.copyFileSync(packageJsonPath, packageJsonBackup)] *)
Definition copy_manifest (d : option pkgdir) : error + pkgdir :=
  match d with
  | None => inl ENOENT
  | Some d =>
      match manifest d with
      | None => inl ENOENT
      | Some f =>
          if writable d then inr (PkgDir (manifest d) (Some f) (tarballs d) (writable d))
          else inl EACCES
      end
  end.

(** Lines 8-20: the backup, then the read is started. *)
Definition packAndInstall (c : pk) : M unit :=
  d ← gets (fun s => pkgs (w s) !! packDir c);
  match copy_manifest d with
  | inl e => pk_fail c "Failed to backup package.json" e
  | inr d' =>
      modify (set_pkgs (insert (packDir c) d'));;
      defer (ReadManifest c)
  end.

(** [packageJson.name = uniqueName] of line 26, in strict mode. *)
Definition name_package (packageJson : value) (uniqueName : string) : error + value :=
  assign packageJson "name" (VStr uniqueName).

(** The callback of [fs.readFile] (lines 20-27). *)
Definition manifest_read (c : pk) (r : reply) : M unit :=
  d ← gets (fun s => pkgs (w s) !! packDir c);
  let data := match result r with
              | Failed _ => None
              | Done _ => d ≫= manifest
              end in
  match JSON_parse data with
  | inl e => pk_fail c "Failed to parse package.json" e
  | inr packageJson =>
      u ← draw_uuid;
      let uniqueName := component_name u in
      packageJson' ← lift (name_package packageJson uniqueName);
      defer (WriteManifest c uniqueName packageJson')
  end.

(** What a file operation on [packDir] does unless the environment makes it
    fail: [f] computes the directory after it. *)
Definition on_pkgdir (c : pk) (r : reply) (f : pkgdir -> error + pkgdir)
  : M (error + unit) :=
  match result r with
  | Failed err => mret (inl err)
  | Done _ =>
      d ← gets (fun s => pkgs (w s) !! packDir c);
      match d with
      | None => mret (inl ENOENT)
      | Some d =>
          match f d with
          | inl e => mret (inl e)
          | inr d' => modify (set_pkgs (insert (packDir c) d'));; mret (inr ())
          end
      end
  end.

(** The callback of [fs.writeFile] (lines 27-32). *)
Definition manifest_written (c : pk) (uniqueName : string) (packageJson : value)
  (r : reply) : M unit :=
  x ← on_pkgdir c r (fun d =>
         if writable d
         then inr (PkgDir (Some (Document packageJson)) (backup d) (tarballs d) (writable d))
         else inl EACCES);
  match x with
  | inl err => pk_fail c "Failed to write new package.json" err
  | inr _ => exec "npm run build" (packDir c) (NpmRunBuild c uniqueName)
  end.

(** [npm pack] prints the name of the tarball it leaves in [packDir]. *)
Definition npm_packed (c : pk) (stdout : string) : M unit :=
  modify (set_pkgs (alter (fun d =>
    PkgDir (manifest d) (backup d) ({[trim stdout]} ∪ tarballs d) (writable d))
    (packDir c))).

(** The callback of [exec('npm run build')] (lines 32-43). *)
Definition built (c : pk) (uniqueName : string) (r : reply) : M unit :=
  match result r with
  | Failed err => pk_fail c "Failed to run npm build" err
  | Done _ =>
      execSync_cb "npm pack" (packDir c) (nested r 0) (npm_packed c)
        (fun o =>
           match o with
           | Failed err => pk_fail c "Failed to run npm pack" err
           | Done stdout =>
               let packedFileName := trim stdout in
               defer (MovePack c uniqueName packedFileName)
           end)
  end.

(** [fs.rename(packedFile, movedPack)] on the files of the model. *)
Definition move_pack (c : pk) (packedFileName : string) (r : reply)
  : M (error + unit) :=
  match result r with
  | Failed err => mret (inl err)
  | Done _ =>
      d ← gets (fun s => pkgs (w s) !! packDir c);
      t ← gets (fun s => staging_get (installDir c) (core (w s)));
      match d, t with
      | Some d, Some entries =>
          if bool_decide (packedFileName ∈ tarballs d)
          then
            if bool_decide ((packedFileName, false) ∈ entries)
            then mret (inl (Err "Error" "EISDIR: illegal operation on a directory"))
            else
              modify (set_pkgs (insert (packDir c)
                (PkgDir (manifest d) (backup d)
                        (tarballs d ∖ {[packedFileName]})
                        (writable d))));;
              modify (set_core (staging_put (installDir c)
                (Some (filter (fun e : dirent => e <> (packedFileName, true)) entries
                       ++ [(packedFileName, true)]))));;
              mret (inr ())
          else mret (inl ENOENT)
      | _, _ => mret (inl ENOENT)
      end
  end.

(** The callback of the rename (lines 43-48). *)
Definition pack_moved (c : pk) (uniqueName packedFileName : string) (r : reply)
  : M unit :=
  x ← move_pack c packedFileName r;
  match x with
  | inl err =>
      pk_fail c ("Failed to move packaged file (" +:+ path_join (packDir c) packedFileName
                 +:+ " => " +:+ path_join (installDir_path c) packedFileName +:+ ")") err
  | inr _ => defer (UnlinkManifest c uniqueName)
  end.

(** The callback of [fs.unlink] (lines 48-51). *)
Definition manifest_unlinked (c : pk) (uniqueName : string) (r : reply) : M unit :=
  x ← on_pkgdir c r (fun d =>
         match manifest d with
         | None => inl ENOENT
         | Some _ =>
             if writable d then inr (PkgDir None (backup d) (tarballs d) (writable d))
             else inl EACCES
         end);
  match x with
  | inl err => pk_fail c ("Failed to delete " +:+ packageJsonPath c) err
  | inr _ => defer (RestoreManifest c uniqueName)
  end.

(** The callback of the rename of the backup (lines 51-55). *)
Definition manifest_restored (c : pk) (uniqueName : string) (r : reply) : M unit :=
  x ← on_pkgdir c r (fun d =>
         match backup d with
         | None => inl ENOENT
         | Some f =>
             if writable d then inr (PkgDir (Some f) None (tarballs d) (writable d))
             else inl EACCES
         end);
  match x with
  | inl err => throw ReferenceError_e     (* fail(..., e): no e in scope *)
  | inr _ => pk_callback c (inr uniqueName)
  end.

(** [path.join(expDir, location)], which takes strings only. *)
Definition join_checked (expDir : string) (location : value) : error + string :=
  match location with
  | VStr l => inr (path_join expDir l)
  | _ => inl (TypeError "The 'path' argument must be of type string")
  end.

(** *** prepApi (lines 145-171): the loop of line 158 *)

Definition prepApi (expDir : string) (controllerConfigs : value) : M unit :=
  api ← gets (fun s => length (apis s));
  modify (set_apis (fun l => l ++ [ApiClosure [] []]));;
  match controllerConfigs with
  | VArr l =>
      for_each (fun controller =>
        location ← lift (prop controller "location");
        fullContrLoc ← lift (join_checked expDir location);
        mountPath ← lift (prop controller "mountPath");
        api_startTask api;;
        packAndInstall
          (Pk fullContrLoc ApiTemp (KController api expDir fullContrLoc mountPath))) l
  | _ => throw (TypeError "controllerConfigs.forEach is not a function")
  end.

(** *** prepWeb (lines 174-187) *)

Definition prepWeb (expDir : string) (expConfig : value) : M unit :=
  webPage ← lift (prop expConfig "webPage");
  location ← lift (prop webPage "location");
  webPageLoc ← lift (join_checked expDir location);
  packAndInstall (Pk webPageLoc FrontEndTemp (KWebPage expDir expConfig)).

(** *** prepWorker (lines 190-206) *)

Definition prepWorker (expDir : string) (expConfig : value) : M unit :=
  workerConfig ← lift (prop expConfig "worker");
  workerService ← lift (prop workerConfig "service");
  u ← draw_uuid;
  let workerName := worker_name u in
  location ← lift (prop workerConfig "location");
  workerLoc ← lift (join_checked expDir location);
  exec ("docker build " +:+ workerLoc +:+ " -t " +:+ workerName) "."
       (DockerBuild expDir workerName workerService).

(** The callback of [exec('docker build')] (lines 196-205). *)
Definition docker_built (expDir workerName : string) (workerService : value)
  (r : reply) : M unit :=
  match result r with
  | Failed err =>
      worker_prepped expDir (inl (new_Error ("Failed to build worker: " +:+ render err)))
  | Done _ =>
      worker_prepped expDir
        (inr (workerName, VObj (worker_serviceContent workerService workerName)))
  end.

(** *** The exported function (lines 288-334) *)

(** The body of the loop of line 295.  A [return] here leaves the body, and
    [forEach] goes on to the next entry. *)
Definition prep_dir (d : rootent) : M unit :=
  let expDir := path_join (experimentsDir E) (ent_name d) in
  if negb (ent_is_dir d) then mret ()
  else
    a ← attempt (lift (load (ent_config d)));
    match a with
    | inl e => fail ("Failed to load config file for " +:+ expDir) e
    | inr expConfig =>
        (* api *)
        startTask;;
        controllerConfigs ← lift (prop expConfig "apiControllers");
        prepApi expDir controllerConfigs;;
        (* web page *)
        startTask;;
        prepWeb expDir expConfig;;
        (* worker *)
        startTask;;
        prepWorker expDir expConfig
    end.

Definition prep : M unit :=
  a ← attempt cleanUpSync;
  match a with
  | inl e => fail "Failed to clean up old experiments" e
  | inr _ =>
      l ← gets (fun s => root (w s));
      match l with
      | None => throw ENOENT
      | Some expDirs => for_each prep_dir expDirs
      end
  end.

(** ** The event loop *)

(** The callback of a pending operation. *)
Definition resume (o : op) (r : reply) : M unit :=
  match o with
  | ReadManifest c => manifest_read c r
  | WriteManifest c uniqueName packageJson => manifest_written c uniqueName packageJson r
  | NpmRunBuild c uniqueName => built c uniqueName r
  | MovePack c uniqueName packedFileName => pack_moved c uniqueName packedFileName r
  | UnlinkManifest c uniqueName => manifest_unlinked c uniqueName r
  | RestoreManifest c uniqueName => manifest_restored c uniqueName r
  | DockerBuild expDir workerName workerService =>
      docker_built expDir workerName workerService r
  | WriteControllers data => linked data r
  | WriteCompose data => compose_written data r
  | CoreBuild p episode => core_built p episode r
  end.

(** How the event loop takes what a callback returns.  An exception that
    leaves the callback ends the process: nothing stays pending. *)
Definition settle (x : (error + unit) * state) : state :=
  match x with
  | (inr _, s') => s'
  | (inl e, s') => set_pending (fun _ => []) (set_out (fun l => l ++ [Uncaught e]) s')
  end.

(** The [i]-th pending operation completes with [r]. *)
Definition step (i : nat) (r : reply) (s : state) : state :=
  match pending s !! i with
  | None => s
  | Some o => settle (resume o r (set_pending (delete i) s))
  end.

(** A schedule: which operation completes next, and how. *)
Fixpoint run (sched : list (nat * reply)) (s : state) : state :=
  match sched with
  | [] => s
  | (i, r) :: rest => run rest (step i r s)
  end.

(** The exported function called on the files [x].  When it throws, what it
    started stays in flight. *)
Definition start (x : world) : state :=
  match prep (init x) with
  | (inr _, s) => s
  | (inl e, s) => set_out (fun l => l ++ [Thrown e]) s
  end.

End Prep.


(** ** What the properties are stated with *)

(** The three roles of a component.  Controllers and web pages are named by
    [packAndInstall], whichever of [prepApi] and [prepWeb] called it;
    workers are named by [prepWorker]. *)
Inductive role := Controller | WebPage | Worker.

Definition role_prefix (r : role) : string :=
  match r with
  | Controller | WebPage => component_prefix
  | Worker => worker_prefix
  end.

(** The name generated for a component of role [r] when [uuid()] returns
    [u]. *)
Definition generate (r : role) (u : string) : string :=
  match r with
  | Controller | WebPage => component_name u
  | Worker => worker_name u
  end.

(** The role of the component a [packAndInstall] call packages, by the
    callback it was given. *)
Definition role_of (k : pk_cont) : role :=
  match k with
  | KController _ _ _ _ => Controller
  | KWebPage _ _ => WebPage
  end.

(** Where a string has its dashes. *)
Fixpoint dash_mask (u : string) : list bool :=
  match u with
  | EmptyString => []
  | String a r => Ascii.eqb a "-" :: dash_mask r
  end.

(** A string laid out as a uuid: 8-4-4-4-12. *)
Definition uuid_shaped (u : string) : bool :=
  bool_decide (dash_mask u = dash_mask "xxxxxxxx-xxxx-4xxx-yxxx-xxxxxxxxxxxx").

(** [u] without its dashes. *)
Fixpoint undashed (u : string) : string :=
  match u with
  | EmptyString => ""
  | String a r => if Ascii.eqb a "-" then undashed r else String a (undashed r)
  end.

(** *** The task counter as a barrier

    A [tasks] array and the [fail] closure next to it, as [prepApi] and the
    exported function each have them.  [Decrement] is a call of
    [finishTask], [Fail] a call of [fail]; what fires is the success
    continuation (behind the test of the length) or the failure
    continuation (the callback called with an error). *)
Inductive call := Decrement | Fail.
Inductive firing := Success | Failure.

(** The array after [N] calls of [startTask]. *)
Definition barrier (N : nat) : list bool := Nat.iter N push_task [].

Definition barrier_call (c : call) (t : list bool) : list bool * list firing :=
  match c with
  | Decrement =>
      let t' := pop_task t in
      (t', if drained t' then [Success] else [])
  | Fail => (t, [Failure])
  end.

(** The array after the calls [cs]. *)
Fixpoint after (t : list bool) (cs : list call) : list bool :=
  match cs with
  | [] => t
  | c :: r => after (fst (barrier_call c t)) r
  end.

(** What fires during the calls [cs], in order. *)
Fixpoint fired (t : list bool) (cs : list call) : list firing :=
  match cs with
  | [] => []
  | c :: r => snd (barrier_call c t) ++ fired (fst (barrier_call c t)) r
  end.

Fixpoint decrements (cs : list call) : nat :=
  match cs with
  | [] => 0
  | Decrement :: r => S (decrements r)
  | Fail :: r => decrements r
  end.

(** The FanInBarrier as the specification words it: a counter and a latch.
    Once either continuation has fired, every call is a no-op. *)
Definition latch_call (c : call) (b : nat * bool) : (nat * bool) * list firing :=
  let '(count, latched) := b in
  if latched then (b, [])
  else match c with
       | Fail => ((count, true), [Failure])
       | Decrement =>
           if Nat.eqb (count - 1) 0 then ((0, true), [Success])
           else ((count - 1, false), [])
       end.

Fixpoint latch_fired (b : nat * bool) (cs : list call) : list firing :=
  match cs with
  | [] => []
  | c :: r => snd (latch_call c b) ++ latch_fired (fst (latch_call c b)) r
  end.

(** The calls [cs] on the program's own [finishTask] and [fail]. *)
Fixpoint calls (cs : list call) (s : state) : state :=
  match cs with
  | [] => s
  | Decrement :: r => calls r (snd (finishTask s))
  | Fail :: r => calls r (snd (fail "failed" (ErrText "reason") s))
  end.

(** The calls [cs] on [finishTask] and [fail] of the [prepApi] call [api]. *)
Fixpoint api_calls (api : nat) (expDir : string) (cs : list call) (s : state)
  : state :=
  match cs with
  | [] => s
  | Decrement :: r => api_calls api expDir r (snd (api_finishTask api expDir s))
  | Fail :: r =>
      api_calls api expDir r (snd (api_fail expDir "failed" (ErrText "reason") s))
  end.

(** What the calls of the exported function's barrier leave to see: a
    linking started for each success, a call of the callback with an error
    for each failure. *)
Definition successes (s : state) : nat :=
  length (List.filter (fun o => match o with WriteControllers _ => true | _ => false end)
                      (pending s)).
Definition failures (s : state) : nat :=
  length (List.filter (fun e => match e with Callback (Some _) => true | _ => false end)
                      (out s)).

Definition is_success (f : firing) : bool :=
  match f with Success => true | Failure => false end.
Definition is_failure (f : firing) : bool := negb (is_success f).

(** How many times a continuation fires in a list of firings. *)
Definition count_of (p : firing -> bool) (l : list firing) : nat :=
  length (List.filter p l).

(** *** The registries *)

(** [v.k] where a failed access reads as [undefined]. *)
Definition field (v : value) (k : string) : value :=
  match prop v k with
  | inr x => x
  | inl _ => VUndef
  end.

(** A service entry bears the managed marker when its
    [labels.isPushkinWorker] is set. *)
Definition marked (serviceContent : value) : bool :=
  truthy (field (field serviceContent "labels") "isPushkinWorker").

Definition unmarked (kv : string * value) : bool := negb (marked (snd kv)).

(** A service definition is there: the entry is not [null]. *)
Definition defined (v : value) : bool :=
  match v with
  | VUndef | VNull => false
  | _ => true
  end.




(** *** Footprints *)

(** Whatever state it is run on, [m] leaves one that [P] relates to it. *)
Definition within {A} (P : state -> state -> Prop) (m : M A) : Prop :=
  ∀ s, P s (snd (m s)).


Definition is_shell (e : event) : Prop :=
  match e with
  | Shell _ _ => True
  | _ => False
  end.

Definition is_callback (e : event) : bool :=
  match e with
  | Callback _ => true
  | _ => false
  end.

(** Nothing was started, no task was counted, and no callback was called:
    subprocesses were run, and that is all there is to see. *)
Definition quiet (s s' : state) : Prop :=
  pending s' = pending s
  ∧ tasks s' = tasks s
  ∧ ∃ evs, out s' = out s ++ evs ∧ Forall is_shell evs.

(** ** Sample inputs *)

Module Sample.

Definition controller (location mountPath : string) : value :=
  VObj [("location", VStr location); ("mountPath", VStr mountPath)].

(** A descriptor with the given controllers, a web page and a worker. *)
Definition config (shortName : string) (controllers : list value) : value :=
  VObj [("shortName", VStr shortName);
        ("experimentName", VStr "Experiment");
        ("logo", VStr "logo.png");
        ("tagline", VStr "A tagline");
        ("duration", VNum 5);
        ("apiControllers", VArr controllers);
        ("webPage", VObj [("location", VStr "web")]);
        ("worker",
         VObj [("location", VStr "worker");
               ("service",
                VObj [("restart", VStr "always");
                      ("labels", VObj [("team", VStr "lab")])])])].

(** A component's source directory with a manifest. *)
Definition package (name : string) : pkgdir :=
  PkgDir (Some (Document (VObj [("name", VStr name); ("version", VStr "1.0.0")])))
         None ∅ true.

Definition worker_service (image : string) : value :=
  VObj [("image", VStr image);
        ("labels", VObj [("isPushkinWorker", VBool true)])].

(** The services of a compose file: three workers of an earlier run and a
    database. *)
Definition services : object :=
  [("pushkinworker1", worker_service "pushkinworker1");
   ("db", VObj [("image", VStr "postgres:11")]);
   ("pushkinworker2", worker_service "pushkinworker2");
   ("pushkinworker3", worker_service "pushkinworker3")].

Definition compose_doc : object :=
  [("version", VStr "3"); ("services", VObj services)].

(** A core directory after an earlier run. *)
Definition used_core : core_dir :=
  CoreDir
    (Some (Document (VArr [VObj [("name", VStr "pushkinComponent0a");
                                 ("mountPath", VStr "/old")]])))
    (Some ("import pushkinComponent0b from 'pushkinComponent0b';" +:+ nl +:+
           "export default [" +:+ nl +:+
           tab +:+ "{ fullName: 'Old', module: pushkinComponent0b }," +:+ nl +:+
           "];"))
    (Some [("old-1.0.0.tgz", true); ("node_modules", false)])
    (Some [("old-1.0.0.tgz", true)])
    (Some (Document (VObj compose_doc))).

(** The directories of the plugin [name] under [exps]. *)
Definition sources (name : string) (locations : list string) : list (string * pkgdir) :=
  map (fun l => (path_join (path_join "exps" name) l, package l)) locations.

Definition files (plugins : list rootent) (dirs : list (string * pkgdir)) : world :=
  World used_core (list_to_map dirs) (Some plugins).

Definition plugin (name : string) : rootent :=
  RootEnt name true (Some (Document (config name [controller "api" ("/" +:+ name)]))).
Definition malformed (name : string) : rootent :=
  RootEnt name true (Some Unparsable).

Definition uuid (n : nat) : string :=
  "110ec58a-a0f2-4ac4-8393-c866d813b8d" +:+ pretty n.

Definition env (a : execSync_arg3) : env :=
  Env a uuid (fun _ => Done "") "core" "exps".

(** Every operation succeeds; [npm pack] prints the name of its tarball. *)
Definition ok : reply :=
  Reply (Done ("exp-1.0.0.tgz" +:+ nl)) (fun _ => Done ("exp-1.0.0.tgz" +:+ nl)).

(** The first pending operation succeeds, [n] times over. *)
Definition all_ok (n : nat) : list (nat * reply) := repeat (0, ok) n.

(** One plugin, all its files in place. *)
Definition one_plugin : world :=
  files [plugin "exp1"] (sources "exp1" ["api"; "web"]).


End Sample.

(** ** Further definitions the properties are stated with *)

(** *** Texts *)

Fixpoint has_char (c : ascii) (s : string) : bool :=
  match s with
  | EmptyString => false
  | String a r => Ascii.eqb a c || has_char c r
  end.

(** The text begins with a character that [trim] keeps. *)
Definition starts_unspaced (s : string) : bool :=
  match s with
  | EmptyString => false
  | String a _ => negb (is_space a)
  end.

(** The web pages [includes], written into the module list one after the
    other as the linking does (line 233). *)
Definition include_all (includes : list (string * string)) (text : string) : string :=
  foldl (fun t include => includeInModuleList_text (fst include) (snd include) t)
        text includes.

(** A module name and its list entry that keep to their lines: no space or
    line break in the name, no line break in the entry. *)
Definition one_line (include : string * string) : bool :=
  negb (has_char " " (fst include))
  && negb (has_char "010" (fst include))
  && negb (has_char "010" (snd include)).

(** What [getModuleList] takes from one line (lines 70-71). *)
Definition read_line (line : string) : list value :=
  match split_on " "%char line with
  | s0 :: rest =>
      if String.eqb s0 "import"
      then [match rest with s1 :: _ => VStr s1 | [] => VUndef end]
      else []
  | [] => []
  end.

(** *** Cleanup *)

(** The subprocess that lines 99 and 109 run for the module [moduleName]. *)
Definition uninstall_cmd (E : env) (sub : string) (moduleName : value) : event :=
  Shell ("npm uninstall " +:+ to_str moduleName +:+ " --save")
        (path_join (coreDir E) sub).



(** *** Linking *)

(** The entry that the callback of [docker build] hands on for the worker
    named [fst worker] with the base service [snd worker] (lines 199-204):
    the service name and the service content. *)
Definition worker_entry (worker : string * value) : string * value :=
  (fst worker, VObj (worker_serviceContent (snd worker) (fst worker))).

(** *** What a run has come to *)

Definition is_core_build (o : op) : bool :=
  match o with
  | CoreBuild _ _ => true
  | _ => false
  end.

(** The call of the top-level callback without an error. *)
Definition is_completion (e : event) : bool :=
  match e with
  | Callback None => true
  | _ => false
  end.

(** No build of the core is in flight, and the top-level callback was not
    called without an error. *)
Definition unfinished (s : state) : bool :=
  forallb (fun o => negb (is_core_build o)) (pending s)
  && forallb (fun e => negb (is_completion e)) (out s).

Definition stays_unfinished (s s' : state) : Prop :=
  unfinished s = true → unfinished s' = true.

(** The steps of [packAndInstall] before the restore of the manifest. *)
Definition before_restore (o : op) : bool :=
  match o with
  | ReadManifest _ | WriteManifest _ _ _ | NpmRunBuild _ _ | MovePack _ _ _
  | UnlinkManifest _ _ => true
  | _ => false
  end.

(** The steps whose failure is handled by [fail(..., e)] where no [e] is in
    scope (lines 53, 228 and 252). *)
Definition fails_unbound (o : op) : bool :=
  match o with
  | RestoreManifest _ _ | WriteControllers _ | WriteCompose _ => true
  | _ => false
  end.

(** *** Controllers *)

(** A controller of a descriptor that is there and whose [location] is a
    string. *)
Definition has_location (controller : value) : bool :=
  defined controller
  && match field controller "location" with
     | VStr _ => true
     | _ => false
     end.

(** The packaging that line 163 starts for a controller: its source
    directory, the staging directory of the api, and the callback of
    [prepApi]'s call number [api]. *)
Definition controller_pk (api : nat) (expDir : string) (controller : value) : pk :=
  let fullContrLoc := path_join expDir (to_str (field controller "location")) in
  Pk fullContrLoc ApiTemp
     (KController api expDir fullContrLoc (field controller "mountPath")).

(** A source directory whose package.json can be copied beside it. *)
Definition packable (p : gmap string pkgdir) (dir : string) : bool :=
  match p !! dir with
  | Some d =>
      match manifest d with
      | Some _ => writable d
      | None => false
      end
  | None => false
  end.

(** The backup of the manifest of [dir] is there and holds what the
    manifest holds. *)
Definition backed_up (p : gmap string pkgdir) (dir : string) : Prop :=
  (p !! dir) ≫= backup = (p !! dir) ≫= manifest.

(** *** Web pages *)

(** The properties of a descriptor that line 184 writes into the entry of
    the web page. *)
Definition entry_fields : list string :=
  ["experimentName"; "shortName"; "logo"; "tagline"; "duration"].

(** The entry of line 184. *)
Definition web_entry (expConfig : object) (moduleName : string) : string :=
  "{ fullName: '" +:+ to_str (obj_get "experimentName" expConfig) +:+
  "', shortName: '" +:+ to_str (obj_get "shortName" expConfig) +:+
  "', module: " +:+ moduleName +:+
  ", logo: '" +:+ to_str (obj_get "logo" expConfig) +:+
  "', tagline: '" +:+ to_str (obj_get "tagline" expConfig) +:+
  "', duration: '" +:+ to_str (obj_get "duration" expConfig) +:+ "' }".

(** *** Further sample inputs *)



(** * Properties *)

(** ** Objects *)

Section Objects.

Implicit Types (k : string) (v : value) (o : object).

Lemma obj_get_set k k' v o :
  obj_get k' (obj_set k v o) = if String.eqb k' k then v else obj_get k' o.
Proof.
  induction o as [|[k0 v0] o IH]; simpl.
  - destruct (String.eqb_spec k' k); reflexivity.
  - destruct (String.eqb_spec k k0) as [->|Hk]; simpl.
    + destruct (String.eqb_spec k' k0); reflexivity.
    + destruct (String.eqb_spec k' k0) as [->|Hk'].
      * destruct (String.eqb_spec k0 k); congruence.
      * exact IH.
Qed.





End Objects.

(** ** Running monadic code by hand *)

Ltac run_M :=
  repeat (unfold mbind, M_bind, mret, M_ret, modify, gets, lift, emit, defer,
                 throw, attempt, try_catch; simpl).


(** ** ServiceRegistryEntry *)


(** ** UniqueNamer *)

Lemma split_on_cons c s : ∃ w ws, split_on c s = w :: ws.
Proof.
  destruct s as [|a r]; simpl; [by eexists _, _|].
  destruct (Ascii.eqb a c); [by eexists _, _|].
  destruct (split_on c r); by eexists _, _.
Qed.

Lemma join_empty_cons a w ws :
  join "" (String a w :: ws) = String a (join "" (w :: ws)).
Proof. destruct ws; reflexivity. Qed.

(** Splitting at the dashes and joining with nothing removes the dashes. *)
Lemma uuid_hex_undashed u : uuid_hex u = undashed u.
Proof.
  unfold uuid_hex. induction u as [|a r IH]; [reflexivity|].
  simpl. destruct (Ascii.eqb a "-").
  - destruct (split_on_cons "-" r) as (w & ws & Hr).
    rewrite Hr in *. exact IH.
  - destruct (split_on_cons "-" r) as (w & ws & Hr).
    rewrite Hr in *. rewrite join_empty_cons. by rewrite IH.
Qed.

(** Two strings with their dashes in the same places and the same other
    characters are equal. *)
Lemma undashed_inj u1 u2 :
  dash_mask u1 = dash_mask u2 → undashed u1 = undashed u2 → u1 = u2.
Proof.
  revert u2. induction u1 as [|a1 r1 IH]; intros [|a2 r2]; simpl; try done.
  intros [= Ha Hm].
  destruct (Ascii.eqb_spec a1 "-") as [->|H1];
    destruct (Ascii.eqb_spec a2 "-") as [->|H2]; try done.
  - intros H. f_equal. by apply IH.
  - intros [= -> H]. f_equal. by apply IH.
Qed.

Lemma uuid_hex_inj u1 u2 :
  uuid_shaped u1 = true → uuid_shaped u2 = true →
  uuid_hex u1 = uuid_hex u2 → u1 = u2.
Proof.
  unfold uuid_shaped. intros H1%bool_decide_eq_true H2%bool_decide_eq_true.
  rewrite !uuid_hex_undashed. apply undashed_inj. congruence.
Qed.

Lemma generate_prefix r u : generate r u = role_prefix r +:+ uuid_hex u.
Proof. by destruct r. Qed.

Lemma worker_name_not_component u u' : worker_name u ≠ component_name u'.
Proof.
  unfold worker_name, component_name, worker_prefix, component_prefix.
  simpl. discriminate.
Qed.

Lemma append_inv_head (p x y : string) : p +:+ x = p +:+ y → x = y.
Proof. induction p as [|a p IH]; simpl; [done|]. intros [= H]. by apply IH. Qed.

Lemma generate_inj r1 r2 u1 u2 :
  uuid_shaped u1 = true → uuid_shaped u2 = true →
  generate r1 u1 = generate r2 u2 → u1 = u2.
Proof.
  intros H1 H2 H. apply uuid_hex_inj; [done..|].
  destruct r1, r2; simpl in H;
    try (by apply worker_name_not_component in H);
    try (by symmetry in H; apply worker_name_not_component in H);
    by apply append_inv_head in H.
Qed.

(** [generate] is what the program does: [packAndInstall] names the
    component it packages, a controller or a web page, in the callback of
    the read, and [prepWorker] names the worker before it starts the
    build. *)
Lemma manifest_read_generates E c stdout n s d o :
  pkgs (w s) !! packDir c = Some d →
  manifest d = Some (Document (VObj o)) →
  let uniqueName := generate (role_of (pk_k c)) (uuid E (drawn s)) in
  manifest_read E c (Reply (Done stdout) n) s
  = (inr (),
     set_pending (fun p => p ++
       [WriteManifest c uniqueName (VObj (obj_set "name" (VStr uniqueName) o))])
       (set_drawn S s)).
Proof.
  intros Hd Hm uniqueName. unfold manifest_read, draw_uuid. run_M.
  rewrite Hd. simpl. rewrite Hm. simpl.
  subst uniqueName. by destruct (pk_k c).
Qed.

Lemma prepWorker_generates E expDir s (expConfig : object) workerService location :
  obj_get "worker" expConfig
  = VObj [("location", VStr location); ("service", workerService)] →
  let workerName := generate Worker (uuid E (drawn s)) in
  prepWorker E expDir (VObj expConfig) s
  = (inr (),
     set_pending (fun p => p ++ [DockerBuild expDir workerName workerService])
       (set_out (fun l => l ++
          [Shell ("docker build " +:+ path_join expDir location
                  +:+ " -t " +:+ workerName) "."])
          (set_drawn S s))).
Proof.
  intros Hw workerName. unfold prepWorker, draw_uuid, exec. run_M.
  rewrite Hw. reflexivity.
Qed.

(** C8, as amended.  The names are the random identifier behind one of two
    fixed prefixes: [pushkinComponent] for controllers and web pages alike,
    [pushkinworker] for workers, so that a worker's name is never the name
    of a controller or web page.  When the values of [uuid()] drawn in a
    run are laid out as uuids and pairwise distinct, the names generated
    from them are pairwise distinct, whatever the roles. *)
Theorem generated_names_distinct (calls : list (role * string)) :
  Forall (fun c => uuid_shaped (snd c) = true) calls →
  NoDup (map snd calls) →
  NoDup (map (fun c => generate (fst c) (snd c)) calls)
  ∧ (∀ r u, generate r u = role_prefix r +:+ uuid_hex u)
  ∧ role_prefix Controller = "pushkinComponent"
  ∧ role_prefix WebPage = "pushkinComponent"
  ∧ role_prefix Worker = "pushkinworker"
  ∧ (∀ u u', generate Worker u ≠ generate Controller u'
             ∧ generate Worker u ≠ generate WebPage u').
Proof.
  intros Hshape Hnodup. split; [|split; [apply generate_prefix|]].
  - induction calls as [|[r u] calls IH]; simpl in *; [constructor|].
    apply Forall_cons in Hshape as [Hu Hshape].
    apply NoDup_cons in Hnodup as [Hnotin Hnodup].
    constructor; [|by apply IH].
    intros Hin. apply Hnotin.
    apply list_elem_of_fmap in Hin as ([r' u'] & Heq & Hin). simpl in Heq.
    apply list_elem_of_fmap. exists (r', u'). split; [|done]. simpl.
    rewrite Forall_forall in Hshape.
    apply (generate_inj r r'); [done| |done].
    by apply (Hshape (r', u')).
  - repeat split; try reflexivity; apply worker_name_not_component.
Qed.

Lemma generated_names_distinct_witness :
  NoDup (map (fun c => generate (fst c) (snd c))
             [(Controller, "110ec58a-a0f2-4ac4-8393-c866d813b8d1");
              (WebPage, "7c9e6679-7425-40de-944b-e07fc1f90ae7");
              (Worker, "9b2f1d3e-5a6c-4e7f-8a1b-2c3d4e5f6a7b")]).
Proof.
  refine (proj1 (generated_names_distinct
           [(Controller, "110ec58a-a0f2-4ac4-8393-c866d813b8d1");
            (WebPage, "7c9e6679-7425-40de-944b-e07fc1f90ae7");
            (Worker, "9b2f1d3e-5a6c-4e7f-8a1b-2c3d4e5f6a7b")] _ _)).
  - repeat constructor.
  - apply (bool_decide_unpack _). vm_compute. exact I.
Defined.

(** C8 does not hold as stated: a controller and a web page are different
    roles named behind the same prefix, and from the same identifier they
    get the same name. *)
Lemma controller_and_page_share_prefix :
  Controller ≠ WebPage
  ∧ role_prefix Controller = role_prefix WebPage
  ∧ generate Controller "110ec58a-a0f2-4ac4-8393-c866d813b8d1"
    = generate WebPage "110ec58a-a0f2-4ac4-8393-c866d813b8d1".
Proof. split; [discriminate|]. split; reflexivity. Qed.

(** ** The task counter *)

Lemma barrier_repeat N : barrier N = repeat true N.
Proof.
  unfold barrier. induction N as [|N IH]; [reflexivity|].
  simpl. rewrite IH. unfold push_task.
  change [true] with (repeat true 1). rewrite <- repeat_app.
  by rewrite Nat.add_1_r.
Qed.

Lemma pop_task_repeat n : pop_task (repeat true n) = repeat true (n - 1).
Proof.
  unfold pop_task. destruct n as [|n]; [reflexivity|].
  replace (S n) with (n + 1) at 1 by lia.
  rewrite repeat_app. simpl. rewrite removelast_last.
  f_equal. lia.
Qed.

Lemma pop_task_length (t : list bool) : length (pop_task t) = length t - 1.
Proof.
  unfold pop_task. induction t as [|x [|y t] IH]; [done..|].
  change (removelast (x :: y :: t)) with (x :: removelast (y :: t)).
  simpl in *. lia.
Qed.

Lemma drained_repeat n : drained (repeat true n) = Nat.eqb n 0.
Proof. unfold drained. by rewrite repeat_length. Qed.

Lemma after_app t cs cs' : after t (cs ++ cs') = after (after t cs) cs'.
Proof. revert t. induction cs as [|c cs IH]; intros t; simpl; [done|]. apply IH. Qed.

Lemma fired_app t cs cs' :
  fired t (cs ++ cs') = fired t cs ++ fired (after t cs) cs'.
Proof.
  revert t. induction cs as [|c cs IH]; intros t; simpl; [done|].
  by rewrite IH, app_assoc.
Qed.

(** After any calls the array holds one entry for every task started and
    not popped; a [fail] leaves it alone. *)
Lemma after_barrier N cs :
  after (barrier N) cs = barrier (N - decrements cs).
Proof.
  revert N. induction cs as [|[] cs IH]; intros N; simpl.
  - f_equal. lia.
  - rewrite barrier_repeat, pop_task_repeat, <- barrier_repeat, IH.
    f_equal. lia.
  - apply IH.
Qed.

Lemma count_of_app p l l' : count_of p (l ++ l') = count_of p l + count_of p l'.
Proof. unfold count_of. by rewrite List.filter_app, length_app. Qed.

(** The barrier is the program's: [finishTask] and [fail] of the exported
    function, run on any state, start a linking for every [Success] and
    call the callback with an error for every [Failure]. *)
Lemma calls_fired cs s :
  tasks (calls cs s) = after (tasks s) cs
  ∧ successes (calls cs s) = successes s + count_of is_success (fired (tasks s) cs)
  ∧ failures (calls cs s) = failures s + count_of is_failure (fired (tasks s) cs).
Proof.
  revert s. induction cs as [|[] cs IH]; intros s; cbn [calls fired after].
  - unfold count_of. simpl. repeat split; lia.
  - destruct (IH (snd (finishTask s))) as (Ht & Hs & Hf).
    rewrite Ht, Hs, Hf, !count_of_app. clear IH Ht Hs Hf.
    unfold finishTask. run_M.
    destruct (drained (pop_task (tasks s))) eqn:Hd; simpl;
      unfold successes, failures, count_of; simpl;
      rewrite ?List.filter_app, ?length_app; simpl; repeat split; lia.
  - destruct (IH (snd (fail "failed" (ErrText "reason") s))) as (Ht & Hs & Hf).
    rewrite Ht, Hs, Hf, !count_of_app. clear IH Ht Hs Hf.
    unfold fail. run_M.
    unfold successes, failures, count_of; simpl;
      rewrite ?List.filter_app, ?length_app; simpl; repeat split; lia.
Qed.

Lemma fired_decrement N cs :
  fired (barrier N) (cs ++ [Decrement])
  = fired (barrier N) cs ++
    (if Nat.leb N (S (decrements cs)) then [Success] else []).
Proof.
  rewrite fired_app, after_barrier. cbn [fired barrier_call fst snd].
  rewrite app_nil_r. f_equal.
  rewrite barrier_repeat, pop_task_repeat, drained_repeat.
  destruct (Nat.leb_spec N (S (decrements cs)));
    destruct (Nat.eqb_spec (N - decrements cs - 1) 0); try done; lia.
Qed.

Lemma decrements_repeat k : decrements (repeat Decrement k) = k.
Proof. induction k; simpl; congruence. Qed.

Lemma repeat_snoc {A} (x : A) k : repeat x (S k) = repeat x k ++ [x].
Proof.
  change [x] with (repeat x 1). rewrite <- repeat_app. f_equal. lia.
Qed.

Lemma fired_decrements N k :
  fired (barrier N) (repeat Decrement k) = repeat Success (k - (N - 1)).
Proof.
  induction k as [|k IH]; [reflexivity|].
  rewrite repeat_snoc, fired_decrement, IH, decrements_repeat.
  destruct (Nat.leb_spec N (S k)).
  - replace (S k - (N - 1)) with (S (k - (N - 1))) by lia.
    by rewrite repeat_snoc.
  - replace (S k - (N - 1)) with 0 by lia.
    replace (k - (N - 1)) with 0 by lia. reflexivity.
Qed.

(** So is the barrier of [prepApi]: its [finishTask] and [fail] call the
    callback of [prepApi] with the list for every [Success], which finishes
    a task of the exported function, and with an error for every
    [Failure], which reaches the top-level callback. *)
Lemma api_calls_fired api expDir cs : ∀ s a,
  apis s !! api = Some a →
  a_tasks <$> apis (api_calls api expDir cs s) !! api = Some (after (a_tasks a) cs)
  ∧ failures (api_calls api expDir cs s)
    = failures s + count_of is_failure (fired (a_tasks a) cs)
  ∧ length (tasks (api_calls api expDir cs s))
    = length (tasks s) - count_of is_success (fired (a_tasks a) cs).
Proof.
  induction cs as [|[] cs IH]; intros s a Ha; cbn [api_calls fired after].
  - rewrite Ha. unfold count_of. simpl. repeat split; lia.
  - set (a' := ApiClosure (pop_task (a_tasks a)) (contrListAppendix a)).
    assert (Hs : ∃ s1, api_finishTask api expDir s = (inr (), s1)
                  ∧ apis s1 !! api = Some a' ∧ failures s1 = failures s
                  ∧ length (tasks s1)
                    = length (tasks s)
                      - count_of is_success (snd (barrier_call Decrement (a_tasks a)))).
    { unfold api_finishTask. run_M. rewrite list_lookup_alter_eq, Ha. simpl.
      destruct (drained (pop_task (a_tasks a))) eqn:Hd.
      - unfold api_prepped, finishTask. run_M.
        destruct (drained (pop_task (tasks s))); eexists;
          (split; [reflexivity|]); simpl; rewrite list_lookup_alter_eq, Ha;
          unfold failures, count_of; simpl;
          rewrite pop_task_length; repeat split; lia.
      - eexists. split; [reflexivity|]. simpl. rewrite list_lookup_alter_eq, Ha.
        unfold count_of. simpl. repeat split; lia. }
    destruct Hs as (s1 & Hrun & Ha1 & Hf1 & Ht1). rewrite Hrun. simpl.
    destruct (IH s1 a' Ha1) as (H1 & H2 & H3).
    rewrite H1, H2, H3, Hf1, Ht1, !count_of_app. simpl.
    fold (pop_task (a_tasks a)).
    destruct (drained (pop_task (a_tasks a))); unfold count_of; simpl;
      repeat split; lia.
  - assert (Hs : ∃ s1, api_fail expDir "failed" (ErrText "reason") s = (inr (), s1)
                  ∧ apis s1 = apis s ∧ failures s1 = S (failures s)
                  ∧ tasks s1 = tasks s).
    { unfold api_fail, api_prepped, fail. run_M. eexists.
      split; [reflexivity|]. unfold failures. simpl.
      rewrite List.filter_app, length_app. simpl. repeat split; lia. }
    destruct Hs as (s1 & Hrun & Ha1 & Hf1 & Ht1). rewrite Hrun. simpl.
    rewrite <- Ha1 in Ha.
    destruct (IH s1 a Ha) as (H1 & H2 & H3).
    rewrite H1, H2, H3, Hf1, Ht1.
    unfold count_of. simpl. repeat split; lia.
Qed.

(** C1, as amended.  For every expected count [N] and every sequence [cs]
    of decrement and fail calls on the tasks array: a fail call fires the
    failure continuation every time it is made; a decrement fires the
    success continuation whenever it leaves the array empty, which is at
    the [N]-th decrement and at every later one, whatever fail calls came
    before; with [N >= 1] decrements and no fail call, success fires once,
    at the last of them.  The [finishTask] and [fail] of the exported
    function behave so on every state, a linking being started for each
    success and the top-level callback called with an error for each
    failure; and so do those of [prepApi], each success finishing a task of
    the exported function. *)
Theorem barrier_firings (N : nat) (cs : list call) (s : state)
  (expDir : string) (contrListAppendix : list value) :
  fired (barrier N) (cs ++ [Fail]) = fired (barrier N) cs ++ [Failure]
  ∧ fired (barrier N) (cs ++ [Decrement])
    = fired (barrier N) cs ++
      (if Nat.leb N (S (decrements cs)) then [Success] else [])
  ∧ fired (barrier (S N)) (repeat Decrement N) = []
  ∧ fired (barrier (S N)) (repeat Decrement (S N)) = [Success]
  ∧ successes (calls cs (set_tasks (fun _ => barrier N) s))
    = successes s + count_of is_success (fired (barrier N) cs)
  ∧ failures (calls cs (set_tasks (fun _ => barrier N) s))
    = failures s + count_of is_failure (fired (barrier N) cs)
  ∧ (let s0 := set_apis (fun _ => [ApiClosure (barrier N) contrListAppendix]) s in
     failures (api_calls 0 expDir cs s0)
     = failures s + count_of is_failure (fired (barrier N) cs)
     ∧ length (tasks (api_calls 0 expDir cs s0))
       = length (tasks s) - count_of is_success (fired (barrier N) cs)).
Proof.
  split; [|split; [|split; [|split; [|split; [|split]]]]].
  - rewrite fired_app. reflexivity.
  - apply fired_decrement.
  - rewrite fired_decrements. by replace (N - (S N - 1)) with 0 by lia.
  - rewrite fired_decrements. by replace (S N - (S N - 1)) with 1 by lia.
  - by destruct (calls_fired cs (set_tasks (fun _ => barrier N) s)) as (_ & Hs & _).
  - by destruct (calls_fired cs (set_tasks (fun _ => barrier N) s)) as (_ & _ & Hf).
  - intros s0.
    destruct (api_calls_fired 0 expDir cs s0
                (ApiClosure (barrier N) contrListAppendix) eq_refl)
      as (_ & Hf & Ht).
    split; [exact Hf|exact Ht].
Qed.

(** C1 does not hold as stated.  With two tasks outstanding, two fail calls
    fire the failure continuation twice, where the barrier of the
    specification fires it once; and a decrement that empties the array
    after a fail call still fires the success continuation. *)
Lemma barrier_fires_again :
  fired (barrier 2) [Fail; Fail] = [Failure; Failure]
  ∧ latch_fired (2, false) [Fail; Fail] = [Failure]
  ∧ fired (barrier 1) [Fail; Decrement] = [Failure; Success]
  ∧ latch_fired (1, false) [Fail; Decrement] = [Failure]
  ∧ fired (barrier 1) [Decrement; Decrement] = [Success; Success]
  ∧ latch_fired (1, false) [Decrement; Decrement] = [Success].
Proof. repeat split. Qed.

(** The same in a run: a plugin with two controllers whose directories have
    no package.json.  Each backup fails, and the top-level callback is
    called with an error twice, by Node's [execSync] or not. *)
Lemma two_failing_controllers_fail_twice (a : execSync_arg3) :
  let x := Sample.files
             [RootEnt "exp2" true
                (Some (Document (Sample.config "exp2"
                   [Sample.controller "a" "/a"; Sample.controller "b" "/b"])))]
             (Sample.sources "exp2" ["web"]) in
  length (List.filter is_callback (out (start (Sample.env a) x))) = 2
  ∧ failures (start (Sample.env a) x) = 2.
Proof. destruct a; vm_compute; done. Qed.

(** ** ComponentPackager: the backup *)

(** An error handed to the callback of [packAndInstall] goes up to the
    top-level callback and changes nothing else. *)
Lemma pk_callback_error c err s :
  ∃ err',
    pk_callback c (inl err) s
    = (inr (), set_out (fun o => o ++ [Callback (Some err')]) s).
Proof.
  unfold pk_callback.
  destruct (pk_k c) as [api expDir fullContrLoc mountPath|expDir expConfig].
  - eexists. unfold controller_packed, api_fail, api_prepped, fail. run_M.
    reflexivity.
  - eexists. unfold web_packed, web_prepped, fail. run_M. reflexivity.
Qed.

(** C9.  When the backup copy of package.json cannot be made,
    [packAndInstall] fails at once with the error of the backup: the
    callback chain is called with "Failed to backup package.json", which
    reaches the top-level callback as one error, and nothing else happens.
    The files are as they were, so the source directory and its manifest are
    untouched; no operation is started (no read, rewrite, build, pack or
    move is pending) and no subprocess is launched. *)
Theorem backup_failure_is_atomic (E : env) (c : pk) (s : state) (e : error) :
  copy_manifest (pkgs (w s) !! packDir c) = inl e →
  packAndInstall E c s = pk_fail E c "Failed to backup package.json" e s
  ∧ ∃ err,
      packAndInstall E c s
      = (inr (), set_out (fun o => o ++ [Callback (Some err)]) s)
      ∧ w (snd (packAndInstall E c s)) = w s
      ∧ pending (snd (packAndInstall E c s)) = pending s
      ∧ out (snd (packAndInstall E c s)) = out s ++ [Callback (Some err)].
Proof.
  intros Hcopy.
  assert (Hfail : packAndInstall E c s
                  = pk_fail E c "Failed to backup package.json" e s).
  { unfold packAndInstall. run_M. by rewrite Hcopy. }
  split; [exact Hfail|].
  rewrite Hfail. unfold pk_fail.
  destruct (pk_callback_error c
              (new_Error ("Failed to backup package.json" +:+ nl +:+ tab +:+ "("
                 +:+ packDir c +:+ ", " +:+ installDir_path E c +:+ "):"
                 +:+ nl +:+ tab +:+ tab +:+ render e)) s) as [err Herr].
  exists err. rewrite Herr. by destruct s.
Qed.

(** A web page whose directory has no package.json. *)
Lemma backup_failure_is_atomic_witness :
  ∃ err,
    packAndInstall (Sample.env Ignored)
      (Pk "exps/exp1/web" FrontEndTemp (KWebPage "exps/exp1" (Sample.config "exp1" [])))
      (init (Sample.files [] []))
    = (inr (), set_out (fun o => o ++ [Callback (Some err)])
                       (init (Sample.files [] []))).
Proof.
  destruct (backup_failure_is_atomic (Sample.env Ignored)
              (Pk "exps/exp1/web" FrontEndTemp
                  (KWebPage "exps/exp1" (Sample.config "exp1" [])))
              (init (Sample.files [] [])) ENOENT) as [_ [err [H _]]].
  - reflexivity.
  - exists err. exact H.
Defined.

(** ** CleanupResetter: the service registry *)

Lemma field_falsy v k : truthy v = false → truthy (field v k) = false.
Proof.
  destruct v as [| |b|z|s|l|o]; simpl; try done.
  destruct s; [|done]. intros _. unfold field. simpl.
  destruct (String.eqb k "length"); [done|].
  by destruct (index_of k).
Qed.

(** On an entry that is there, the test of line 136 does not throw and says
    whether the entry bears the marker. *)
Lemma is_worker_defined v : defined v = true → is_worker v = inr (marked v).
Proof.
  intros Hv. unfold is_worker, marked, field.
  destruct (prop v "labels") as [e|labels] eqn:Hl.
  { destruct v; simpl in *; done. }
  simpl. destruct (truthy labels) eqn:Ht.
  - destruct (prop labels "isPushkinWorker") as [e|m] eqn:Hm; [|done].
    destruct labels; simpl in *; done.
  - f_equal. symmetry. apply (field_falsy labels "isPushkinWorker" Ht).
Qed.

Lemma obj_get_app_notin k (o1 o2 : object) :
  k ∉ keys o1 → obj_get k (o1 ++ o2) = obj_get k o2.
Proof.
  unfold keys. induction o1 as [|[k0 v0] o1 IH]; simpl; [done|].
  rewrite not_elem_of_cons. intros [Hk Hnotin].
  destruct (String.eqb_spec k k0); [done|]. by apply IH.
Qed.

Lemma obj_del_notin k (o : object) : k ∉ keys o → obj_del k o = o.
Proof.
  unfold keys. induction o as [|[k0 v0] o IH]; simpl; [done|].
  rewrite not_elem_of_cons. intros [Hk Hnotin].
  destruct (String.eqb_spec k k0); [done|]. by rewrite IH.
Qed.

Lemma obj_del_app k (o1 o2 : object) :
  obj_del k (o1 ++ o2) = obj_del k o1 ++ obj_del k o2.
Proof.
  induction o1 as [|[k0 v0] o1 IH]; simpl; [done|].
  destruct (String.eqb k k0); simpl; by rewrite IH.
Qed.

Lemma keys_filter k (p : string * value → bool) (o : object) :
  k ∈ keys (List.filter p o) → k ∈ keys o.
Proof.
  unfold keys. induction o as [|[k0 v0] o IH]; simpl; [done|].
  destruct (p (k0, v0)); simpl; rewrite ?elem_of_cons; intuition.
Qed.

(** The loop of lines 134-138 over an object with distinct keys whose
    entries are all there: it keeps the entries without the marker, in
    their order. *)
Lemma sweep_filter (pre rest : object) :
  NoDup (keys (pre ++ rest)) →
  forallb (fun kv => defined (snd kv)) rest = true →
  sweep (keys rest) (List.filter unmarked pre ++ rest)
  = inr (List.filter unmarked (pre ++ rest)).
Proof.
  revert pre. induction rest as [|[k v] rest IH]; intros pre Hnodup Hdef.
  - simpl. by rewrite !app_nil_r.
  - simpl in Hdef. apply andb_prop in Hdef as [Hv Hdef]. simpl in Hv.
    assert (Hpre : (k ∉ keys pre) ∧ (k ∉ keys rest)).
    { unfold keys in *. rewrite map_app in Hnodup. simpl in Hnodup.
      apply NoDup_app in Hnodup as (_ & Hdisj & Hrest).
      apply NoDup_cons in Hrest as [Hk _]. split; [|done].
      intros Hin. apply (Hdisj k Hin). left. }
    destruct Hpre as [Hkpre Hkrest].
    assert (Hkf : k ∉ keys (List.filter unmarked pre))
      by (intros Hin; apply Hkpre; by apply (keys_filter k unmarked)).
    cbn [keys map fst sweep]. fold (keys rest).
    rewrite obj_get_app_notin by done. simpl. rewrite String.eqb_refl.
    rewrite (is_worker_defined v Hv). simpl.
    specialize (IH (pre ++ [(k, v)])).
    rewrite <- app_assoc in IH. simpl in IH. specialize (IH Hnodup Hdef).
    rewrite List.filter_app in IH. simpl in IH. unfold unmarked at 2 in IH.
    simpl in IH.
    destruct (marked v) eqn:Hm; simpl in IH.
    + rewrite obj_del_app, (obj_del_notin k _ Hkf). simpl.
      rewrite String.eqb_refl, (obj_del_notin k _ Hkrest).
      by rewrite app_nil_r in IH.
    + by rewrite <- app_assoc in IH.
Qed.

Lemma dumpable_filter (p : string * value → bool) (o : object) :
  dumpable (VObj o) = true → dumpable (VObj (List.filter p o)) = true.
Proof.
  simpl. induction o as [|[k v] o IH]; simpl; [done|].
  intros [Hv Ho]%andb_prop. destruct (p (k, v)); simpl; [|by apply IH].
  by rewrite Hv, IH.
Qed.

Lemma dumpable_set k x (o : object) :
  dumpable x = true → dumpable (VObj o) = true →
  dumpable (VObj (obj_set k x o)) = true.
Proof.
  simpl. intros Hx. induction o as [|[k0 v0] o IH]; simpl.
  - by rewrite Hx.
  - intros [Hv Ho]%andb_prop. destruct (String.eqb k k0); simpl.
    + by rewrite Hx, Ho.
    + by rewrite Hv, IH.
Qed.

Lemma dumpable_get k (o : object) :
  dumpable (VObj o) = true → obj_get k o ≠ VUndef → dumpable (obj_get k o) = true.
Proof.
  simpl. induction o as [|[k0 v0] o IH]; simpl; [done|].
  intros [Hv Ho]%andb_prop. destruct (String.eqb k k0); [done|]. by apply IH.
Qed.

(** C7.  For every compose file holding a service-registry document, that
    is a document whose [services] is a map from distinct names to service
    definitions, lines 130-140 of [cleanUpSync] complete and write the
    document back with exactly the services that bear no marker
    ([labels.isPushkinWorker] not set): those are kept unchanged and in
    their order, every service bearing the marker is gone, and the rest of
    the document is as it was. *)
Theorem managed_services_removed (s : state) (doc svcs : object) :
  compose (core (w s)) = Some (Document (VObj doc)) →
  obj_get "services" doc = VObj svcs →
  NoDup (keys svcs) →
  forallb (fun kv => defined (snd kv)) svcs = true →
  dumpable (VObj doc) = true →
  remove_worker_services s
  = (inr (),
     set_core (put_compose (Some (Document
       (VObj (obj_set "services" (VObj (List.filter unmarked svcs)) doc))))) s).
Proof.
  intros Hc Hs Hnodup Hdef Hdump.
  unfold remove_worker_services. run_M. rewrite Hc. simpl. rewrite Hs. simpl.
  pose proof (sweep_filter [] svcs Hnodup Hdef) as Hsweep. simpl in Hsweep.
  rewrite Hsweep. simpl.
  unfold safeDump.
  assert (Hsv : dumpable (VObj svcs) = true).
  { rewrite <- Hs. apply dumpable_get; [done|]. by rewrite Hs. }
  rewrite dumpable_set; [reflexivity| |done].
  by apply dumpable_filter.
Qed.

(** A registry with three workers of an earlier run and a database ends with
    the database alone. *)
Lemma managed_services_removed_witness :
  remove_worker_services (init (Sample.files [] []))
  = (inr (),
     set_core (put_compose (Some (Document
       (VObj [("version", VStr "3");
              ("services", VObj [("db", VObj [("image", VStr "postgres:11")])])]))))
       (init (Sample.files [] []))).
Proof.
  refine (managed_services_removed (init (Sample.files [] []))
            Sample.compose_doc Sample.services _ _ _ _ _).
  - reflexivity.
  - reflexivity.
  - apply (bool_decide_unpack _). vm_compute. exact I.
  - reflexivity.
  - reflexivity.
Defined.

(** ** Footprints of monadic code *)

Section Footprint.

Context {P : state → state → Prop}.
Hypothesis P_refl : ∀ s, P s s.
Hypothesis P_trans : ∀ a b c, P a b → P b c → P a c.

Lemma within_ret {A} (a : A) : within P (mret a).
Proof. intros s. apply P_refl. Qed.

Lemma within_throw {A} e : within P (throw e : M A).
Proof. intros s. apply P_refl. Qed.

Lemma within_lift {A} (x : error + A) : within P (lift x).
Proof. intros s. apply P_refl. Qed.

Lemma within_gets {A} (f : state → A) : within P (gets f).
Proof. intros s. apply P_refl. Qed.

Lemma within_modify f : (∀ s, P s (f s)) → within P (modify f).
Proof. intros H s. apply H. Qed.

Lemma within_bind {A B} (m : M A) (f : A → M B) :
  within P m → (∀ a, within P (f a)) → within P (m ≫= f).
Proof.
  intros Hm Hf s. unfold mbind, M_bind.
  specialize (Hm s). destruct (m s) as [[e|a] s']; simpl in *; [done|].
  eapply P_trans; [exact Hm|]. apply Hf.
Qed.

Lemma within_try_catch {A} (m : M A) (h : error → M A) :
  within P m → (∀ e, within P (h e)) → within P (try_catch m h).
Proof.
  intros Hm Hh s. unfold try_catch.
  specialize (Hm s). destruct (m s) as [[e|a] s']; simpl in *; [|done].
  eapply P_trans; [exact Hm|]. apply Hh.
Qed.

Lemma within_attempt {A} (m : M A) : within P m → within P (attempt m).
Proof.
  intros Hm s. unfold attempt. specialize (Hm s). by destruct (m s).
Qed.

Lemma within_for_each {A} (f : A → M unit) (l : list A) :
  (∀ x, within P (f x)) → within P (for_each f l).
Proof.
  intros Hf. induction l as [|x l IH]; simpl.
  - apply within_ret.
  - apply within_bind; [apply Hf|]. intros _. exact IH.
Qed.

(** Running a subprocess is within [P] when launching one is. *)
Hypothesis P_shell : ∀ s cmd cwd, P s (set_out (fun o => o ++ [Shell cmd cwd]) s).

Lemma within_execSync cmd cwd o : within P (execSync cmd cwd o).
Proof.
  unfold execSync. apply within_bind.
  - apply within_modify. intros s. apply P_shell.
  - intros _. destruct o; [apply within_ret|apply within_throw].
Qed.

Lemma within_uninstall E moduleName sub :
  within P (uninstall E moduleName sub).
Proof.
  unfold uninstall. apply within_try_catch.
  - apply within_bind; [by apply within_execSync|]. intros _. apply within_ret.
  - intros _. apply within_ret.
Qed.

Lemma within_reset_controllers E :
  (∀ s v, P s (set_core (put_controllers_json v) s)) →
  within P (reset_controllers E).
Proof.
  intros Hput. unfold reset_controllers.
  apply within_bind; [apply within_gets|]. intros f.
  apply within_bind; [apply within_lift|]. intros oldContrList.
  apply within_bind.
  - destruct oldContrList; try apply within_throw.
    apply within_for_each. intros contr.
    apply within_bind; [apply within_lift|]. intros moduleName.
    apply within_uninstall.
  - intros _. apply within_modify. intros s. apply Hput.
Qed.

Lemma within_reset_pages E :
  (∀ s v, P s (set_core (put_experiments_js v) s)) →
  within P (reset_pages E).
Proof.
  intros Hput. unfold reset_pages.
  apply within_bind; [apply within_gets|]. intros t.
  apply within_bind.
  { destruct t; [apply within_ret|apply within_throw]. }
  intros oldPages. apply within_bind.
  - apply within_for_each. intros pageModule. apply within_uninstall.
  - intros _. apply within_modify. intros s. apply Hput.
Qed.

Lemma within_clean_staging d :
  (∀ s name, P s (set_core (staging_unlink d name) s)) →
  within P (clean_staging d).
Proof.
  intros Hunlink. unfold clean_staging.
  apply within_bind; [apply within_gets|]. intros [entries|]; [|apply within_throw].
  apply within_for_each. intros [name isFile]. simpl.
  destruct isFile; [|apply within_ret].
  apply within_modify. intros s. apply Hunlink.
Qed.

Lemma within_remove_temp_files :
  (∀ s d name, P s (set_core (staging_unlink d name) s)) →
  within P remove_temp_files.
Proof.
  intros Hunlink. unfold remove_temp_files. apply within_try_catch.
  - apply within_bind; [by apply within_clean_staging|].
    intros _. by apply within_clean_staging.
  - intros _. apply within_ret.
Qed.

Lemma within_remove_worker_services :
  (∀ s v, P s (set_core (put_compose v) s)) →
  within P remove_worker_services.
Proof.
  intros Hput. unfold remove_worker_services.
  apply within_bind; [apply within_gets|]. intros y.
  apply within_bind; [apply within_lift|]. intros compFile.
  apply within_bind; [apply within_lift|]. intros services.
  apply within_bind; [apply within_lift|]. intros services'.
  apply within_bind; [apply within_lift|]. intros newCompData.
  apply within_modify. intros s. apply Hput.
Qed.

Lemma within_cleanUpSync E :
  (∀ s f, P s (set_core f s)) → within P (cleanUpSync E).
Proof.
  intros Hcore. unfold cleanUpSync.
  apply within_bind; [by apply within_reset_controllers|]. intros _.
  apply within_bind; [by apply within_reset_pages|]. intros _.
  apply within_bind; [by apply within_remove_temp_files|]. intros _.
  by apply within_remove_worker_services.
Qed.

End Footprint.

(** ** CleanupResetter: idempotence *)

















Lemma obj_set_get k (o : object) :
  obj_get k o ≠ VUndef → obj_set k (obj_get k o) o = o.
Proof.
  induction o as [|[k0 v0] o IH]; simpl; [done|].
  destruct (String.eqb_spec k k0) as [->|]; [done|].
  intros H. by rewrite IH.
Qed.











Section Agree.

Context {X : Type} (f : core_dir → X).




End Agree.




(** ** A barrier nothing was counted on *)

Lemma quiet_refl s : quiet s s.
Proof.
  split; [done|]. split; [done|]. exists []. by rewrite app_nil_r.
Qed.

Lemma quiet_trans a b c : quiet a b → quiet b c → quiet a c.
Proof.
  intros (Hp & Ht & evs & Ho & Hs) (Hp' & Ht' & evs' & Ho' & Hs').
  split; [congruence|]. split; [congruence|].
  exists (evs ++ evs'). split.
  - by rewrite Ho', Ho, app_assoc.
  - by apply Forall_app.
Qed.

Lemma quiet_shell s cmd cwd :
  quiet s (set_out (fun o => o ++ [Shell cmd cwd]) s).
Proof.
  split; [done|]. split; [done|]. exists [Shell cmd cwd].
  split; [done|]. by constructor.
Qed.

Lemma quiet_set_core s f : quiet s (set_core f s).
Proof.
  split; [done|]. split; [done|]. exists []. split; [|done].
  simpl. by rewrite app_nil_r.
Qed.

(** [cleanUpSync] starts nothing and calls nothing back. *)
Lemma cleanUpSync_quiet E : within quiet (cleanUpSync E).
Proof.
  apply within_cleanUpSync.
  - apply quiet_refl.
  - apply quiet_trans.
  - apply quiet_shell.
  - apply quiet_set_core.
Qed.

(** With nothing pending, no schedule changes the state. *)
Lemma run_nothing_pending E sched s : pending s = [] → run E sched s = s.
Proof.
  intros Hp. induction sched as [|[i r] sched IH]; simpl; [done|].
  unfold step. rewrite Hp. simpl. exact IH.
Qed.



(** ** Malformed descriptors *)

(** C3, as amended.  For every plugin directory whose descriptor fails to
    load or parse, the body of the loop calls the top-level callback once
    with the error "Failed to load config file for" that directory and
    does nothing else for it: no task is counted and no preparation is
    started.  It returns normally, so the loop goes on with the directories
    that follow: the plugin is skipped and the others are prepared. *)
Theorem malformed_descriptor_is_skipped (E : env) (d : rootent) (e : error)
  (rest : list rootent) (s : state) :
  ent_is_dir d = true →
  load (ent_config d) = inl e →
  let failure :=
    Callback (Some (new_Error
      ("Failed to load config file for "
       +:+ path_join (experimentsDir E) (ent_name d) +:+ ": " +:+ render e))) in
  prep_dir E d s = (inr (), set_out (fun o => o ++ [failure]) s)
  ∧ for_each (prep_dir E) (d :: rest) s
    = for_each (prep_dir E) rest (set_out (fun o => o ++ [failure]) s).
Proof.
  intros Hdir Hload failure.
  assert (H : prep_dir E d s = (inr (), set_out (fun o => o ++ [failure]) s)).
  { unfold prep_dir. rewrite Hdir. simpl. run_M. by rewrite Hload. }
  split; [exact H|].
  simpl. unfold mbind, M_bind. by rewrite H.
Qed.

Lemma malformed_descriptor_is_skipped_witness :
  prep_dir (Sample.env Ignored) (Sample.malformed "bad") (init (Sample.files [] []))
  = (inr (),
     set_out (fun o => o ++
       [Callback (Some (new_Error
          "Failed to load config file for exps/bad: SyntaxError: Unexpected token"))])
       (init (Sample.files [] []))).
Proof.
  refine (proj1 (malformed_descriptor_is_skipped (Sample.env Ignored)
                   (Sample.malformed "bad") (Err "SyntaxError" "Unexpected token")
                   [] (init (Sample.files [] [])) _ _)).
  - reflexivity.
  - reflexivity.
Defined.

(** C3 does not hold as stated.  Two malformed descriptors give two
    failures, not one.  A malformed descriptor before a well-formed one
    does not abort the run: the other plugin's three preparations are
    started.  Where the callbacks given to [execSync] are called, they run
    to the end: the other plugin's controller is written to
    controllers.json, its worker to the compose file, and the callback is
    called without an error after it was called with one. *)
Lemma malformed_descriptor_does_not_abort :
  let two_bad := start (Sample.env Ignored)
                   (Sample.files [Sample.malformed "bad1"; Sample.malformed "bad2"] []) in
  let mixed a := start (Sample.env a)
                   (Sample.files [Sample.malformed "bad"; Sample.plugin "exp1"]
                                 (Sample.sources "exp1" ["api"; "web"])) in
  let done := run (Sample.env Invoked) (Sample.all_ok 20) (mixed Invoked) in
  List.filter is_callback (out two_bad)
  = [Callback (Some (new_Error
       "Failed to load config file for exps/bad1: SyntaxError: Unexpected token"));
     Callback (Some (new_Error
       "Failed to load config file for exps/bad2: SyntaxError: Unexpected token"))]
  ∧ tasks (mixed Ignored) = [true; true; true]
  ∧ length (pending (mixed Ignored)) = 3
  ∧ List.filter is_callback (out done)
    = [Callback (Some (new_Error
         "Failed to load config file for exps/bad: SyntaxError: Unexpected token"));
       Callback None; Callback None]
  ∧ controllers_json (core (w done))
    = Some (Document (VArr [VObj [("name", VStr (component_name (Sample.uuid 1)));
                                  ("mountPath", VStr "/exp1")]]))
  ∧ marked (field (field (match compose (core (w done)) with
                          | Some (Document v) => v
                          | _ => VUndef
                          end) "services") (worker_name (Sample.uuid 0))) = true.
Proof. vm_compute. repeat split. Qed.

(** ** ComponentPackager: the whole chain *)

(** The callback of [packAndInstall] does not touch the files. *)
Lemma pk_callback_files c res s : w (snd (pk_callback c res s)) = w s.
Proof.
  unfold pk_callback.
  destruct (pk_k c) as [api expDir fullContrLoc mountPath|expDir expConfig].
  - unfold controller_packed, api_fail, api_finishTask, api_prepped, fail, finishTask.
    destruct res as [err|moduleName]; run_M; [done|].
    repeat (match goal with |- context [if ?b then _ else _] => destruct b end;
            run_M); done.
  - unfold web_packed, web_prepped, fail, finishTask.
    destruct res as [err|moduleName]; run_M; [done|].
    repeat (match goal with
            | |- context [match prop ?v ?k with _ => _ end] => destruct (prop v k)
            | |- context [if ?b then _ else _] => destruct b
            end; run_M); done.
Qed.

Lemma settle_files x : w (settle x) = w (snd x).
Proof. by destruct x as [[e|[]] s]. Qed.

(** C5 fails on the code.  [execSync] does not call the callback it is
    given in line 35.  For every source directory with an object in its
    package.json, when the backup, the read, the rewrite, the build and the
    pack all succeed, nothing is pending after [npm pack]: the tarball is
    not moved, package.json is not restored and the callback of
    [packAndInstall] is never called.  The manifest is left with the
    generated name, its original in package.json.bak, and the staging
    directories, the task counters and the callbacks made are as they
    were before. *)
Theorem packaging_stops_after_pack (u : nat → string) (un : string → outcome)
  (cd ed : string) (c : pk) (s : state) (d : pkgdir) (o : object)
  (o1 o2 o3 stdout : string) (n1 n2 : nat → outcome) :
  let E := Env Ignored u un cd ed in
  let uniqueName := component_name (u (drawn s)) in
  let s' := run E [(0, Reply (Done o1) n1); (0, Reply (Done o2) n2);
                   (0, Reply (Done o3) (fun _ => Done stdout))]
              (snd (packAndInstall E c s)) in
  pending s = [] →
  pkgs (w s) !! packDir c = Some d →
  manifest d = Some (Document (VObj o)) →
  writable d = true →
  pending s' = []
  ∧ out s' = out s ++ [Shell "npm run build" (packDir c); Shell "npm pack" (packDir c)]
  ∧ pkgs (w s') !! packDir c
    = Some (PkgDir (Some (Document (VObj (obj_set "name" (VStr uniqueName) o))))
                   (Some (Document (VObj o)))
                   ({[trim stdout]} ∪ tarballs d) true)
  ∧ core (w s') = core (w s)
  ∧ apis s' = apis s ∧ tasks s' = tasks s
  ∧ ∀ sched, run E sched s' = s'.
Proof.
  intros E uniqueName s' Hp Hd Hm Hw.
  assert (H : pending s' = []
    ∧ out s' = out s ++ [Shell "npm run build" (packDir c); Shell "npm pack" (packDir c)]
    ∧ pkgs (w s') !! packDir c
      = Some (PkgDir (Some (Document (VObj (obj_set "name" (VStr uniqueName) o))))
                     (Some (Document (VObj o)))
                     ({[trim stdout]} ∪ tarballs d) true)
    ∧ core (w s') = core (w s)
    ∧ apis s' = apis s ∧ tasks s' = tasks s).
  { destruct s as [[c0 p0 r0] pend dr ap ta nc nw ns pr ou].
    destruct d as [m b t wr]. simpl in *. subst pend m wr.
    subst s'. unfold packAndInstall. run_M. rewrite Hd. simpl.
    unfold step. simpl. unfold manifest_read. run_M.
    rewrite lookup_insert_eq. simpl.
    unfold draw_uuid. run_M.
    unfold manifest_written, on_pkgdir. run_M. rewrite lookup_insert_eq. simpl.
    unfold exec. run_M.
    unfold built. run_M. unfold execSync_cb. run_M. unfold npm_packed. run_M.
    rewrite !insert_insert_eq, lookup_alter_eq, lookup_insert_eq, <- app_assoc.
    done. }
  destruct H as (H1 & H2 & H3 & H4 & H5 & H6).
  repeat (split; [assumption|]).
  intros sched. by apply run_nothing_pending.
Qed.

(** The directory of the controller of a sample plugin. *)
Lemma packaging_stops_after_pack_witness :
  pending
    (run (Env Ignored Sample.uuid (fun _ => Done "") "core" "exps")
       [(0, Reply (Done "") (fun _ => Done ""));
        (0, Reply (Done "") (fun _ => Done ""));
        (0, Reply (Done "") (fun _ => Done "exp-1.0.0.tgz"))]
       (snd (packAndInstall (Env Ignored Sample.uuid (fun _ => Done "") "core" "exps")
               (Pk "exps/exp1/api" ApiTemp
                   (KController 0 "exps/exp1" "exps/exp1/api" (VStr "/exp1")))
               (init Sample.one_plugin))))
  = [].
Proof.
  refine (proj1 (packaging_stops_after_pack Sample.uuid (fun _ => Done "")
                   "core" "exps"
                   (Pk "exps/exp1/api" ApiTemp
                       (KController 0 "exps/exp1" "exps/exp1/api" (VStr "/exp1")))
                   (init Sample.one_plugin) (Sample.package "api")
                   [("name", VStr "api"); ("version", VStr "1.0.0")]
                   "" "" "" "exp-1.0.0.tgz"
                   (fun _ => Done "") (fun _ => Done "") _ _ _ _)).
  - reflexivity.
  - vm_compute. reflexivity.
  - reflexivity.
  - reflexivity.
Defined.

(** Had [execSync] called the callback it is given, C5 would hold.  For
    every source directory with an object in its package.json and every
    staging directory that can take the tarball, when all the steps
    succeed the callback of [packAndInstall] is called with the generated
    name, on a state where the tarball is in the staging directory and
    package.json is what it was before the call, its backup gone; and
    that is how the files are left. *)
Lemma packaging_restores_when_called_back (u : nat → string)
  (un : string → outcome) (cd ed : string) (c : pk) (s : state) (d : pkgdir)
  (o : object) (entries : list dirent)
  (o1 o2 o3 o4 o5 o6 stdout : string) (n1 n2 n4 n5 n6 : nat → outcome) :
  let E := Env Invoked u un cd ed in
  let uniqueName := component_name (u (drawn s)) in
  let packedFileName := trim stdout in
  let sf := run E [(0, Reply (Done o1) n1); (0, Reply (Done o2) n2);
                   (0, Reply (Done o3) (fun _ => Done stdout));
                   (0, Reply (Done o4) n4); (0, Reply (Done o5) n5);
                   (0, Reply (Done o6) n6)]
              (snd (packAndInstall E c s)) in
  pending s = [] →
  pkgs (w s) !! packDir c = Some d →
  manifest d = Some (Document (VObj o)) →
  writable d = true →
  staging_get (installDir c) (core (w s)) = Some entries →
  (packedFileName, false) ∉ entries →
  ∃ s6,
    sf = settle (pk_callback c (inr uniqueName) s6)
    ∧ w sf = w s6
    ∧ pending s6 = [] ∧ tasks s6 = tasks s ∧ apis s6 = apis s
    ∧ pkgs (w s6) !! packDir c
      = Some (PkgDir (manifest d) None
                     (({[packedFileName]} ∪ tarballs d) ∖ {[packedFileName]}) true)
    ∧ staging_get (installDir c) (core (w s6))
      = Some (filter (fun e : dirent => e ≠ (packedFileName, true)) entries
              ++ [(packedFileName, true)]).
Proof.
  intros E uniqueName packedFileName sf Hp Hd Hm Hw Hst Hnotdir.
  destruct s as [[c0 p0 r0] pend dr ap ta nc nw ns pr ou].
  destruct d as [m b t wr]. simpl in *. subst pend m wr.
  subst sf. unfold packAndInstall. run_M. rewrite Hd. simpl.
  unfold step. simpl. unfold manifest_read. run_M.
  rewrite lookup_insert_eq. simpl.
  unfold draw_uuid. run_M.
  unfold manifest_written, on_pkgdir. run_M. rewrite lookup_insert_eq. simpl.
  unfold exec. run_M.
  unfold built. run_M. unfold execSync_cb. run_M. unfold npm_packed. run_M.
  unfold pack_moved, move_pack. run_M.
  rewrite ?insert_insert_eq, ?alter_insert_eq, ?lookup_insert_eq. simpl.
  rewrite Hst. fold packedFileName.
  rewrite (bool_decide_true (packedFileName ∈ {[packedFileName]} ∪ t))
    by set_solver.
  rewrite (bool_decide_false _ Hnotdir). run_M.
  unfold manifest_unlinked, on_pkgdir. run_M.
  rewrite ?insert_insert_eq, ?lookup_insert_eq. simpl.
  unfold manifest_restored, on_pkgdir. run_M.
  rewrite ?insert_insert_eq, ?lookup_insert_eq. simpl.
  rewrite ?insert_insert_eq.
  eexists. split; [reflexivity|].
  split; [by rewrite settle_files, pk_callback_files|].
  simpl. rewrite lookup_insert_eq.
  repeat (split; [reflexivity|]).
  by destruct (installDir c).
Qed.

(** ** The downstream rebuilds *)


(** A sample run under that reading: both manifests are restored, both
    tarballs staged, and the controller is recorded under its generated
    name. *)
Lemma sample_packaging_when_called_back :
  let E := Sample.env Invoked in
  let s := run E (Sample.all_ok 13) (start E Sample.one_plugin) in
  pkgs (w s) !! "exps/exp1/api" = Some (Sample.package "api")
  ∧ pkgs (w s) !! "exps/exp1/web" = Some (Sample.package "web")
  ∧ api_temp (core (w s)) = Some [("node_modules", false); ("exp-1.0.0.tgz", true)]
  ∧ fe_temp (core (w s)) = Some [("exp-1.0.0.tgz", true)]
  ∧ newApiControllers s
    = [VObj [("name", VStr (component_name (Sample.uuid 1)));
             ("mountPath", VStr "/exp1")]].
Proof. vm_compute. repeat split. Qed.

(** * Further properties *)

(** ** Texts: split, join and trim *)

Lemma append_cons x (a b : string) : String x a +:+ b = String x (a +:+ b).
Proof. reflexivity. Qed.

Lemma append_nil_l (b : string) : "" +:+ b = b.
Proof. reflexivity. Qed.

Lemma append_assoc (a b c : string) : (a +:+ b) +:+ c = a +:+ (b +:+ c).
Proof.
  induction a as [|x a IH]; [reflexivity|].
  rewrite !append_cons. by rewrite IH.
Qed.

Lemma append_nil_r (a : string) : a +:+ "" = a.
Proof.
  induction a as [|x a IH]; [reflexivity|]. rewrite append_cons. by rewrite IH.
Qed.

(** Splitting goes through a separator. *)
Lemma split_on_app c s1 s2 :
  split_on c (s1 +:+ String c s2) = split_on c s1 ++ split_on c s2.
Proof.
  induction s1 as [|a r IH].
  - rewrite append_nil_l. simpl. by rewrite Ascii.eqb_refl.
  - rewrite append_cons. simpl. destruct (Ascii.eqb a c); [by rewrite IH|].
    rewrite IH. destruct (split_on_cons c r) as (x & xs & ->). reflexivity.
Qed.

Lemma split_on_none c s : has_char c s = false → split_on c s = [s].
Proof.
  induction s as [|a r IH]; simpl; [done|].
  intros [Ha Hr]%orb_false_elim. rewrite Ha, (IH Hr). reflexivity.
Qed.

(** [s.split(c).join(c)] is [s]. *)
Lemma join_split c s : join (String c "") (split_on c s) = s.
Proof.
  induction s as [|a r IH]; [reflexivity|]. simpl.
  destruct (split_on_cons c r) as (x & xs & Hr). rewrite Hr in *.
  destruct (Ascii.eqb_spec a c) as [->|Hne].
  - change (join (String c "") ("" :: x :: xs))
      with ("" +:+ String c "" +:+ join (String c "") (x :: xs)).
    rewrite append_nil_l, append_cons, append_nil_l. by rewrite IH.
  - destruct xs as [|y ys].
    + simpl in *. by rewrite IH.
    + change (join (String c "") (String a x :: y :: ys))
        with (String a x +:+ String c "" +:+ join (String c "") (y :: ys)).
      rewrite append_cons. f_equal. exact IH.
Qed.

Lemma trim_end_snoc s a :
  is_space a = false → trim_end (s +:+ String a "") = s +:+ String a "".
Proof.
  intros Ha. induction s as [|b r IH].
  - rewrite append_nil_l. simpl. by rewrite Ha.
  - rewrite append_cons. simpl. rewrite IH.
    destruct r; [by rewrite append_nil_l|by rewrite append_cons].
Qed.

Lemma trim_start_unspaced s : starts_unspaced s = true → trim_start s = s.
Proof. destruct s as [|a r]; simpl; [done|]. by intros ->%negb_true_iff. Qed.

Lemma starts_unspaced_app s t :
  starts_unspaced s = true → starts_unspaced (s +:+ t) = true.
Proof. by destruct s. Qed.

Lemma take_all_but_last {A} (l : list A) (x : A) :
  take (length (l ++ [x]) - 1) (l ++ [x]) = l.
Proof.
  rewrite length_app. simpl. replace (length l + 1 - 1) with (length l) by lia.
  by rewrite take_app_length.
Qed.

Lemma has_char_app c s t : has_char c (s +:+ t) = has_char c s || has_char c t.
Proof.
  induction s as [|a r IH]; [reflexivity|].
  rewrite append_cons. simpl. by rewrite IH, orb_assoc.
Qed.

(** ** The module list: includeInModuleList and getModuleList *)

Lemma trim_module_list body :
  starts_unspaced body = true →
  trim (body +:+ nl +:+ "];") = body +:+ nl +:+ "];".
Proof.
  intros Hb. unfold trim.
  rewrite trim_start_unspaced by by apply starts_unspaced_app.
  change (nl +:+ "];") with ((nl +:+ "]") +:+ String ";" "").
  rewrite <- append_assoc. by apply trim_end_snoc.
Qed.

Lemma lines_module_list body :
  split_on "010" (body +:+ nl +:+ "];") = split_on "010" body ++ ["];"].
Proof.
  change (nl +:+ "];") with (String "010"%char "];").
  by rewrite split_on_app.
Qed.

(** On a module list, a text that ends with the line of the closing
    bracket, [includeInModuleList] puts the import first and the entry
    last before the bracket. *)
Lemma include_closed_form importName listAppendix body :
  starts_unspaced body = true →
  includeInModuleList_text importName listAppendix (body +:+ nl +:+ "];")
  = ("import " +:+ importName +:+ " from '" +:+ importName +:+ "';" +:+ nl +:+
     body +:+ nl +:+ tab +:+ listAppendix +:+ ",") +:+ nl +:+ "];".
Proof.
  intros Hb. unfold includeInModuleList_text.
  rewrite trim_module_list, lines_module_list, take_all_but_last by done.
  change nl with (String "010"%char "") at 2.
  rewrite join_split. by rewrite !append_assoc.
Qed.

(** The line of an import, as [getModuleList] reads it. *)
Lemma import_line_read importName rest :
  has_char " " importName = false →
  ∃ ws, split_on " " ("import " +:+ importName +:+ String " "%char rest)
        = "import" :: importName :: ws.
Proof.
  intros Hn.
  change ("import " +:+ importName +:+ String " "%char rest)
    with ("import" +:+ String " "%char (importName +:+ String " "%char rest)).
  rewrite !split_on_app, (split_on_none " " importName Hn).
  destruct (split_on_cons " " rest) as (x & xs & ->). by eexists.
Qed.

Lemma getModuleList_lines text :
  getModuleList text = flat_map read_line (split_on "010" (trim text)).
Proof. reflexivity. Qed.

(** An entry line begins with a tab: it is no import. *)
Lemma read_entry_line listAppendix : read_line (tab +:+ listAppendix +:+ ",") = [].
Proof.
  unfold read_line. change (tab +:+ listAppendix +:+ ",")
    with (String "009"%char (listAppendix +:+ ",")).
  simpl. by destruct (split_on_cons " " (listAppendix +:+ ",")) as (x & xs & ->).
Qed.

Lemma read_import_line importName :
  has_char " " importName = false →
  read_line ("import " +:+ importName +:+ " from '" +:+ importName +:+ "';")
  = [VStr importName].
Proof.
  intros Hn. unfold read_line.
  change (" from '" +:+ importName +:+ "';")
    with (String " "%char ("from '" +:+ importName +:+ "';")).
  by destruct (import_line_read importName ("from '" +:+ importName +:+ "';") Hn)
    as (ws & ->).
Qed.

(** What [getModuleList] reads after one [includeInModuleList]. *)
Lemma getModuleList_include importName listAppendix body :
  starts_unspaced body = true →
  one_line (importName, listAppendix) = true →
  getModuleList
    (includeInModuleList_text importName listAppendix (body +:+ nl +:+ "];"))
  = VStr importName :: getModuleList (body +:+ nl +:+ "];").
Proof.
  intros Hb Hone. unfold one_line in Hone. simpl in Hone.
  apply andb_prop in Hone as [[Hsp%negb_true_iff Hnl%negb_true_iff]%andb_prop
                              Ha%negb_true_iff].
  rewrite include_closed_form by done.
  rewrite !getModuleList_lines, !trim_module_list, !lines_module_list;
    [|done|done].
  set (line1 := "import " +:+ importName +:+ " from '" +:+ importName +:+ "';").
  set (entry := tab +:+ listAppendix +:+ ",").
  assert (Hshape :
    "import " +:+ importName +:+ " from '" +:+ importName +:+ "';" +:+ nl +:+
    body +:+ nl +:+ entry
    = line1 +:+ String "010"%char (body +:+ String "010"%char entry)).
  { subst line1 entry. by rewrite !append_assoc. }
  rewrite Hshape, !split_on_app.
  assert (H1 : has_char "010" line1 = false).
  { subst line1. rewrite !has_char_app, Hnl. reflexivity. }
  assert (H3 : has_char "010" entry = false).
  { subst entry. rewrite !has_char_app, Ha. reflexivity. }
  rewrite (split_on_none _ _ H1), (split_on_none _ _ H3).
  rewrite !flat_map_app. cbn [flat_map].
  subst line1 entry. rewrite read_import_line, read_entry_line by done.
  cbn [app]. by rewrite !app_nil_r.
Qed.

Lemma include_all_read includes : ∀ body,
  starts_unspaced body = true →
  forallb one_line includes = true →
  getModuleList (include_all includes (body +:+ nl +:+ "];"))
  = rev (map (fun i => VStr (fst i)) includes)
    ++ getModuleList (body +:+ nl +:+ "];").
Proof.
  induction includes as [|[importName listAppendix] includes IH];
    intros body Hb Hall; [reflexivity|].
  simpl in Hall. apply andb_prop in Hall as [Hone Hall].
  cbn [include_all foldl fst snd map rev].
  fold (include_all includes
          (includeInModuleList_text importName listAppendix (body +:+ nl +:+ "];"))).
  pose proof (getModuleList_include importName listAppendix body Hb Hone) as Hread.
  rewrite include_closed_form in * by done.
  rewrite IH by done. rewrite Hread. by rewrite <- app_assoc.
Qed.

(** X1.  On a module list whose last line is the closing bracket,
    [includeInModuleList] completes and rewrites the file as: the import
    of the module, the text up to the last line as it was, the entry
    behind a tab and before a comma, and the closing bracket.  Nothing of
    the old text is lost and the result is a module list again. *)
Theorem includeInModuleList_inserts (importName listAppendix body : string)
  (s : state) :
  starts_unspaced body = true →
  experiments_js (core (w s)) = Some (body +:+ nl +:+ "];") →
  includeInModuleList importName listAppendix s
  = (inr (),
     set_core (put_experiments_js (Some
       (("import " +:+ importName +:+ " from '" +:+ importName +:+ "';" +:+ nl +:+
         body +:+ nl +:+ tab +:+ listAppendix +:+ ",") +:+ nl +:+ "];"))) s)
  ∧ starts_unspaced
      ("import " +:+ importName +:+ " from '" +:+ importName +:+ "';" +:+ nl +:+
       body +:+ nl +:+ tab +:+ listAppendix +:+ ",") = true.
Proof.
  intros Hb Ht. split; [|reflexivity].
  unfold includeInModuleList. run_M. rewrite Ht.
  by rewrite include_closed_form.
Qed.

Lemma includeInModuleList_inserts_witness :
  experiments_js (core (w (snd
    (includeInModuleList "pushkinComponent0c" "{ module: pushkinComponent0c }"
       (set_core (put_experiments_js (Some empty_module_list))
                 (init (Sample.files [] [])))))))
  = Some ("import pushkinComponent0c from 'pushkinComponent0c';" +:+ nl +:+
          "export default [" +:+ nl +:+
          tab +:+ "{ module: pushkinComponent0c }," +:+ nl +:+ "];").
Proof.
  rewrite (proj1 (includeInModuleList_inserts "pushkinComponent0c"
                    "{ module: pushkinComponent0c }" "export default ["
                    (set_core (put_experiments_js (Some empty_module_list))
                              (init (Sample.files [] [])))
                    eq_refl eq_refl)).
  reflexivity.
Defined.

Lemma set_core_pages_same s text :
  experiments_js (core (w s)) = Some text →
  set_core (put_experiments_js (Some text)) s = s.
Proof. destruct s as [[c p r] ? ? ? ? ? ? ? ? ?], c; simpl; by intros ->. Qed.

Lemma set_core_pages_twice a b s :
  set_core (put_experiments_js a) (set_core (put_experiments_js b) s)
  = set_core (put_experiments_js a) s.
Proof. by destruct s as [[c p r] ? ? ? ? ? ? ? ? ?], c. Qed.

(** The loop of line 233 writes the web pages one after the other. *)
Lemma include_loop (includes : list (string * string)) : ∀ s text,
  experiments_js (core (w s)) = Some text →
  for_each (fun include => includeInModuleList (fst include) (snd include))
           includes s
  = (inr (), set_core (put_experiments_js (Some (include_all includes text))) s).
Proof.
  induction includes as [|[importName listAppendix] includes IH];
    intros s text Ht.
  - simpl. by rewrite set_core_pages_same.
  - cbn [for_each]. unfold mbind, M_bind.
    unfold includeInModuleList at 1. run_M. rewrite Ht.
    rewrite (IH _ (includeInModuleList_text importName listAppendix text))
      by reflexivity.
    by rewrite set_core_pages_twice.
Qed.

(** X2.  What the linking writes into the module list, the next cleanup
    reads back: when the loop of line 233 writes the web pages [includes]
    into the empty module list that [cleanUpSync] leaves, it completes, and
    [getModuleList] reads from the text it leaves the module names of the
    pages, the last one written first, provided each name is free of
    spaces and line breaks and each entry is on one line. *)
Theorem module_list_read_back (includes : list (string * string)) (s : state) :
  forallb one_line includes = true →
  experiments_js (core (w s)) = Some empty_module_list →
  for_each (fun include => includeInModuleList (fst include) (snd include))
           includes s
  = (inr (),
     set_core (put_experiments_js
       (Some (include_all includes empty_module_list))) s)
  ∧ getModuleList (include_all includes empty_module_list)
    = rev (map (fun i => VStr (fst i)) includes).
Proof.
  intros Hall Ht. split; [by apply include_loop|].
  change empty_module_list with ("export default [" +:+ nl +:+ "];").
  rewrite include_all_read by done. by rewrite app_nil_r.
Qed.

Lemma module_list_read_back_witness :
  getModuleList (include_all [("pA", "{ module: pA }"); ("pB", "{ module: pB }")]
                             empty_module_list)
  = [VStr "pB"; VStr "pA"].
Proof.
  exact (proj2 (module_list_read_back
                  [("pA", "{ module: pA }"); ("pB", "{ module: pB }")]
                  (set_core (put_experiments_js (Some empty_module_list))
                            (init (Sample.files [] [])))
                  eq_refl eq_refl)).
Defined.

(** ** Cleanup *)

Lemma set_out_twice f g s : set_out f (set_out g s) = set_out (fun o => f (g o)) s.
Proof. by destruct s. Qed.

Lemma set_out_app l1 l2 s :
  set_out (fun o => o ++ l2) (set_out (fun o => o ++ l1) s)
  = set_out (fun o => o ++ l1 ++ l2) s.
Proof. destruct s; unfold set_out; simpl. by rewrite <- app_assoc. Qed.

Lemma set_out_nil s : set_out (fun o => o ++ []) s = s.
Proof. destruct s; unfold set_out; simpl. by rewrite app_nil_r. Qed.

(** One uninstall runs its command, and that is all: a failure of the
    command is caught. *)
Lemma uninstall_run E moduleName sub s :
  uninstall E moduleName sub s
  = (inr (), set_out (fun o => o ++ [uninstall_cmd E sub moduleName]) s).
Proof.
  unfold uninstall, execSync, uninstall_cmd. run_M.
  by destruct (npm_uninstall E (to_str moduleName)).
Qed.

Lemma uninstall_loop E sub (l : list value) : ∀ s,
  for_each (fun m => uninstall E m sub) l s
  = (inr (), set_out (fun o => o ++ map (uninstall_cmd E sub) l) s).
Proof.
  induction l as [|m l IH]; intros s.
  - simpl. by rewrite set_out_nil.
  - cbn [for_each]. unfold mbind, M_bind. rewrite uninstall_run, IH.
    by rewrite set_out_app.
Qed.

Lemma for_each_ext {A} (f g : A → M unit) (l : list A) :
  (∀ x s, f x s = g x s) → ∀ s, for_each f l s = for_each g l s.
Proof.
  intros Hfg. induction l as [|x l IH]; intros s; [done|].
  cbn [for_each]. unfold mbind, M_bind. rewrite Hfg.
  destruct (g x s) as [[e|[]] s']; [done|apply IH].
Qed.

Lemma prop_defined v k : defined v = true → prop v k = inr (field v k).
Proof. unfold field. by destruct v. Qed.

(** The loop of lines 95-101 on entries none of which is [null]. *)
Lemma uninstall_controllers_loop E (l : list value) : ∀ s,
  forallb defined l = true →
  for_each (fun contr => moduleName ← lift (prop contr "name");
                         uninstall E moduleName "api") l s
  = (inr (),
     set_out (fun o => o ++ map (fun contr => uninstall_cmd E "api" (field contr "name")) l) s).
Proof.
  induction l as [|contr l IH]; intros s Hl.
  - simpl. by rewrite set_out_nil.
  - cbn [forallb] in Hl. apply andb_prop in Hl as [Hc Hl].
    cbn [for_each]. unfold mbind, M_bind, lift.
    rewrite (prop_defined _ _ Hc), uninstall_run, IH by done.
    by rewrite set_out_app.
Qed.

Lemma reset_pages_run E s text :
  experiments_js (core (w s)) = Some text →
  reset_pages E s
  = (inr (),
     set_core (put_experiments_js (Some empty_module_list))
       (set_out (fun o => o ++ map (uninstall_cmd E "front-end") (getModuleList text)) s)).
Proof.
  intros Ht. unfold reset_pages, mbind, M_bind, gets. rewrite Ht.
  unfold mret, M_ret. by rewrite uninstall_loop.
Qed.




Lemma bind_gets {A B} (f : state → A) (k : A → M B) s : (gets f ≫= k) s = k (f s) s.
Proof. reflexivity. Qed.

Lemma bind_lift {A B} (x : error + A) (k : A → M B) s :
  (lift x ≫= k) s = match x with inl e => (inl e, s) | inr a => k a s end.
Proof. by destruct x. Qed.

Lemma bind_run {A B} (m : M A) (k : A → M B) s a s' :
  m s = (inr a, s') → (m ≫= k) s = k a s'.
Proof. intros H. unfold mbind, M_bind. by rewrite H. Qed.

Lemma bind_throws {A B} (m : M A) (k : A → M B) s e s' :
  m s = (inl e, s') → (m ≫= k) s = (inl e, s').
Proof. intros H. unfold mbind, M_bind. by rewrite H. Qed.

(** X3.  Lines 94-103 on a controller manifest that holds an array without
    [null] entries: for each entry, in the order of the array, one
    [npm uninstall <name> --save] is run in the api directory, where
    [<name>] is the entry's [name] as JavaScript prints it ([undefined] for
    an entry without one); whether the commands succeed or fail makes no
    difference; then the manifest is rewritten as the empty array.  Nothing
    else changes. *)
Theorem reset_controllers_uninstalls (E : env) (s : state) (l : list value) :
  controllers_json (core (w s)) = Some (Document (VArr l)) →
  forallb defined l = true →
  reset_controllers E s
  = (inr (),
     set_core (put_controllers_json (Some (Document (VArr []))))
       (set_out (fun o => o ++ map (fun contr => uninstall_cmd E "api" (field contr "name")) l)
                s)).
Proof.
  intros Hf Hl. unfold reset_controllers.
  rewrite bind_gets, Hf, bind_lift. cbn [load].
  by rewrite (bind_run _ _ _ _ _ (uninstall_controllers_loop E l s Hl)).
Qed.

Lemma reset_controllers_uninstalls_witness :
  out (snd (reset_controllers (Sample.env Ignored) (init (Sample.files [] []))))
  = [Shell "npm uninstall pushkinComponent0a --save" "core/api"].
Proof.
  rewrite (reset_controllers_uninstalls (Sample.env Ignored)
             (init (Sample.files [] []))
             [VObj [("name", VStr "pushkinComponent0a"); ("mountPath", VStr "/old")]]
             eq_refl eq_refl).
  reflexivity.
Defined.

(** X4.  Lines 105-113, in full: when the module list cannot be read the
    block throws and nothing has happened; otherwise one
    [npm uninstall <module> --save] is run in the front-end directory for
    each module [getModuleList] reads from the file, in the order of its
    lines and whatever the outcome of each command, and the file is
    rewritten as the empty module list. *)
Theorem reset_pages_uninstalls (E : env) (s : state) :
  reset_pages E s
  = match experiments_js (core (w s)) with
    | None => (inl ENOENT, s)
    | Some text =>
        (inr (),
         set_core (put_experiments_js (Some empty_module_list))
           (set_out (fun o => o ++ map (uninstall_cmd E "front-end") (getModuleList text))
                    s))
    end.
Proof.
  destruct (experiments_js (core (w s))) as [text|] eqn:Ht.
  - by apply reset_pages_run.
  - unfold reset_pages, mbind, M_bind, gets. by rewrite Ht.
Qed.

(** X5.  The cleanup uninstalls the web pages that the linking before it
    included: on the module list that the loop of line 233 leaves after
    writing the pages [includes] into an empty list, lines 105-113
    uninstall exactly the modules of those pages from the front end, the
    last one included first, and empty the list again. *)
Theorem included_pages_are_uninstalled (E : env) (s : state)
  (includes : list (string * string)) :
  forallb one_line includes = true →
  experiments_js (core (w s)) = Some (include_all includes empty_module_list) →
  reset_pages E s
  = (inr (),
     set_core (put_experiments_js (Some empty_module_list))
       (set_out (fun o => o ++ map (fun i => uninstall_cmd E "front-end" (VStr (fst i)))
                                   (rev includes)) s)).
Proof.
  intros Hall Ht. rewrite (reset_pages_run _ _ _ Ht).
  pose proof (include_all_read includes "export default [" eq_refl Hall) as Hr.
  change ("export default [" +:+ nl +:+ "];") with empty_module_list in Hr.
  rewrite Hr. change (getModuleList empty_module_list) with (@nil value).
  by rewrite app_nil_r, !List.map_rev, List.map_map.
Qed.

Lemma included_pages_are_uninstalled_witness :
  out (snd (reset_pages (Sample.env Ignored)
              (set_core (put_experiments_js
                 (Some (include_all [("pA", "{ module: pA }"); ("pB", "{ module: pB }")]
                                    empty_module_list)))
                 (init (Sample.files [] [])))))
  = [Shell "npm uninstall pB --save" "core/front-end";
     Shell "npm uninstall pA --save" "core/front-end"].
Proof.
  rewrite (included_pages_are_uninstalled (Sample.env Ignored)
             (set_core (put_experiments_js
                (Some (include_all [("pA", "{ module: pA }"); ("pB", "{ module: pB }")]
                                   empty_module_list)))
                (init (Sample.files [] [])))
             [("pA", "{ module: pA }"); ("pB", "{ module: pB }")]
             eq_refl eq_refl).
  reflexivity.
Defined.



Lemma bind_ext_l {A B} (m m' : M A) (k : A → M B) s :
  m s = m' s → (m ≫= k) s = (m' ≫= k) s.
Proof. intros H. unfold mbind, M_bind. by rewrite H. Qed.

Lemma bind_ext_r {A B} (m : M A) (k k' : A → M B) s :
  (∀ a s', k a s' = k' a s') → (m ≫= k) s = (m ≫= k') s.
Proof. intros H. unfold mbind, M_bind. by destruct (m s) as [[?|?] ?]. Qed.

Lemma uninstall_env E E' moduleName sub s :
  coreDir E = coreDir E' →
  uninstall E moduleName sub s = uninstall E' moduleName sub s.
Proof. intros H. rewrite !uninstall_run. unfold uninstall_cmd. by rewrite H. Qed.

Lemma reset_controllers_env E E' s :
  coreDir E = coreDir E' → reset_controllers E s = reset_controllers E' s.
Proof.
  intros H. unfold reset_controllers.
  rewrite !bind_gets, !bind_lift. destruct (load _) as [e|v]; [done|].
  destruct v; try done.
  apply bind_ext_l, for_each_ext. intros contr s'.
  rewrite !bind_lift. destruct (prop contr "name"); [done|].
  by apply uninstall_env.
Qed.

Lemma reset_pages_env E E' s :
  coreDir E = coreDir E' → reset_pages E s = reset_pages E' s.
Proof.
  intros H. unfold reset_pages. rewrite !bind_gets.
  destruct (experiments_js (core (w s))); [|done].
  apply bind_ext_r. intros oldPages s'.
  apply bind_ext_l, for_each_ext. intros m s''. by apply uninstall_env.
Qed.

(** X7.  For [cleanUpSync] the uninstalls are best effort: what it returns
    or throws, the files it leaves and the commands it runs are the same
    whether each [npm uninstall] succeeds or fails, and whatever its output
    or error is.  The only thing it takes from its surroundings is the core
    directory. *)
Theorem cleanUpSync_ignores_uninstall_outcomes (E E' : env) (s : state) :
  coreDir E = coreDir E' → cleanUpSync E s = cleanUpSync E' s.
Proof.
  intros H. unfold cleanUpSync.
  etrans; [apply bind_ext_l, reset_controllers_env, H|].
  apply bind_ext_r. intros _ s'.
  apply bind_ext_l, reset_pages_env, H.
Qed.

Lemma cleanUpSync_ignores_uninstall_outcomes_witness :
  cleanUpSync (Sample.env Ignored) (init (Sample.files [] []))
  = cleanUpSync (Env Invoked Sample.uuid (fun _ => Failed ENOENT) "core" "elsewhere")
                (init (Sample.files [] [])).
Proof.
  apply (cleanUpSync_ignores_uninstall_outcomes (Sample.env Ignored)
           (Env Invoked Sample.uuid (fun _ => Failed ENOENT) "core" "elsewhere")).
  reflexivity.
Defined.

Lemma filter_callback_shells (evs : list event) :
  Forall is_shell evs → List.filter is_callback evs = [].
Proof.
  induction 1 as [|e evs He _ IH]; [done|]. simpl. by destruct e.
Qed.

(** X8.  A cleanup that throws ends the command before it looks at any
    plugin: the exported function returns normally, the callback is called
    exactly once, with an error whose message is
    [Failed to clean up old experiments: ] followed by the exception, no
    task is counted and nothing is left pending, so nothing happens
    afterwards either. *)
Theorem failed_cleanup_is_reported (E : env) (x : world) (e : error) (s' : state) :
  cleanUpSync E (init x) = (inl e, s') →
  List.filter is_callback (out (start E x))
  = [Callback (Some (new_Error ("Failed to clean up old experiments: " +:+ render e)))]
  ∧ List.filter (fun ev => match ev with Thrown _ => true | _ => false end)
                (out (start E x)) = []
  ∧ tasks (start E x) = []
  ∧ pending (start E x) = []
  ∧ ∀ sched, run E sched (start E x) = start E x.
Proof.
  intros Hc.
  pose proof (cleanUpSync_quiet E (init x)) as Hq. rewrite Hc in Hq.
  destruct Hq as (Hp & Ht & evs & Ho & Hs). simpl in Hp, Ht, Ho.
  assert (start E x
          = set_out (fun o => o ++ [Callback (Some (new_Error
              ("Failed to clean up old experiments: " +:+ render e)))]) s') as ->.
  { unfold start, prep, attempt, mbind, M_bind. rewrite Hc. reflexivity. }
  assert (pending (set_out (fun o => o ++ [Callback (Some (new_Error
            ("Failed to clean up old experiments: " +:+ render e)))]) s') = [])
    as Hnone by (destruct s'; exact Hp).
  repeat split.
  - destruct s'; simpl in *. subst. rewrite List.filter_app, filter_callback_shells by done.
    reflexivity.
  - destruct s'; simpl in *. subst. rewrite List.filter_app. simpl.
    rewrite app_nil_r. clear -Hs. induction Hs as [|ev evs He _ IH]; [done|].
    simpl. by destruct ev.
  - destruct s'; exact Ht.
  - exact Hnone.
  - intros sched. by apply run_nothing_pending.
Qed.

Lemma failed_cleanup_is_reported_witness :
  List.filter is_callback
    (out (start (Sample.env Ignored)
            (World (put_controllers_json None Sample.used_core) ∅
                   (Some [Sample.plugin "exp1"]))))
  = [Callback (Some (new_Error
       ("Failed to clean up old experiments: " +:+ render ENOENT)))].
Proof.
  refine (proj1 (failed_cleanup_is_reported (Sample.env Ignored)
                   (World (put_controllers_json None Sample.used_core) ∅
                          (Some [Sample.plugin "exp1"]))
                   ENOENT _ _)).
  reflexivity.
Defined.

(** ** The compose file *)

Lemma obj_set_fresh k v (o : object) : k ∉ keys o → obj_set k v o = o ++ [(k, v)].
Proof.
  unfold keys. induction o as [|[k0 v0] o IH]; simpl; [done|].
  rewrite not_elem_of_cons. intros [Hk Hnotin].
  destruct (String.eqb_spec k k0); [done|]. by rewrite IH.
Qed.

Lemma obj_set_twice k a b (o : object) : obj_set k a (obj_set k b o) = obj_set k a o.
Proof.
  induction o as [|[k0 v0] o IH]; simpl.
  - by rewrite String.eqb_refl.
  - destruct (String.eqb_spec k k0) as [->|Hne]; simpl.
    + by rewrite String.eqb_refl.
    + destruct (String.eqb_spec k k0); [done|]. by rewrite IH.
Qed.

(** The entry of a worker bears the marker, whatever its base service. *)
Lemma worker_entry_marked worker : marked (snd (worker_entry worker)) = true.
Proof.
  unfold worker_entry, marked, field, worker_serviceContent. cbn [snd prop].
  rewrite (obj_get_set "labels" "labels"), String.eqb_refl. cbn [prop].
  by rewrite (obj_get_set "isPushkinWorker" "isPushkinWorker"), String.eqb_refl.
Qed.

Lemma filter_unmarked_workers workers :
  List.filter unmarked (map worker_entry workers) = [].
Proof.
  induction workers as [|x workers IH]; [done|].
  cbn [map List.filter]. unfold unmarked at 1.
  by rewrite worker_entry_marked.
Qed.

Lemma filter_unmarked_all (svcs : object) :
  forallb unmarked svcs = true → List.filter unmarked svcs = svcs.
Proof.
  induction svcs as [|kv svcs IH]; [done|]. cbn [forallb List.filter].
  intros [-> H]%andb_prop. by rewrite IH.
Qed.

(** The loop of lines 245-247 with workers under fresh names: the entries
    go behind the services that are there. *)
Lemma add_services_fresh (workers : list (string * value)) : ∀ (doc svcs : object),
  obj_get "services" doc = VObj svcs →
  NoDup (keys svcs ++ map fst workers) →
  add_services (VObj doc) (map worker_entry workers)
  = inr (VObj (obj_set "services" (VObj (svcs ++ map worker_entry workers)) doc)).
Proof.
  induction workers as [|[name base] workers IH]; intros doc svcs Hs Hnodup.
  - cbn [map add_services]. rewrite app_nil_r, <- Hs, obj_set_get; [done|].
    by rewrite Hs.
  - cbn [map add_services]. unfold add_service, worker_entry at 1 2.
    cbn [fst snd prop rbind]. rewrite Hs. cbn [assign rbind].
    assert (name ∉ keys svcs) as Hfresh.
    { apply NoDup_app in Hnodup as (_ & Hdisj & _). intros Hin.
      apply (Hdisj name Hin). apply elem_of_cons. by left. }
    rewrite (obj_set_fresh _ _ _ Hfresh).
    rewrite (IH _ (svcs ++ [(name, VObj (worker_serviceContent base name))])).
    + rewrite obj_set_twice, <- app_assoc. reflexivity.
    + rewrite obj_get_set. by rewrite String.eqb_refl.
    + unfold keys. rewrite map_app, <- app_assoc. exact Hnodup.
Qed.

(** X9.  The cleanup undoes what the linking did to the compose file.
    Take a compose file whose services have distinct names, are all there
    and bear no marker, and workers under distinct names that no service
    has.  The loop of lines 245-247 puts the workers' entries behind the
    services; and on the file so written, lines 130-140 complete and write
    back the file as it was before the linking. *)
Theorem cleanup_undoes_linking_of_workers (s : state) (doc svcs : object)
  (workers : list (string * value)) :
  obj_get "services" doc = VObj svcs →
  NoDup (keys svcs ++ map fst workers) →
  forallb (fun kv => defined (snd kv)) svcs = true →
  forallb unmarked svcs = true →
  dumpable (VObj doc) = true →
  let linkedFile :=
    VObj (obj_set "services" (VObj (svcs ++ map worker_entry workers)) doc) in
  add_services (VObj doc) (map worker_entry workers) = inr linkedFile
  ∧ remove_worker_services (set_core (put_compose (Some (Document linkedFile))) s)
    = (inr (), set_core (put_compose (Some (Document (VObj doc)))) s).
Proof.
  intros Hs Hnodup Hdef Hun Hdump linkedFile. subst linkedFile.
  split; [by apply add_services_fresh|].
  set (new := svcs ++ map worker_entry workers).
  unfold remove_worker_services.
  rewrite bind_gets.
  replace (compose (core (w (set_core (put_compose (Some (Document
             (VObj (obj_set "services" (VObj new) doc))))) s))))
    with (Some (Document (VObj (obj_set "services" (VObj new) doc))))
    by (by destruct s as [[c p r] ? ? ? ? ? ? ? ? ?]).
  rewrite bind_lift. cbn [load].
  rewrite bind_lift. cbn [prop]. rewrite obj_get_set, String.eqb_refl.
  rewrite bind_lift. cbn [remove_workers].
  assert (NoDup (keys new)) as Hnd.
  { unfold new, keys. rewrite map_app, List.map_map. exact Hnodup. }
  assert (forallb (fun kv => defined (snd kv)) new = true) as Hdf.
  { unfold new. rewrite forallb_app, Hdef. cbn [andb]. clear.
    induction workers as [|x workers IH]; [done|]. exact IH. }
  pose proof (sweep_filter [] _ Hnd Hdf) as Hsweep.
  cbn [List.filter app] in Hsweep. rewrite Hsweep.
  unfold new at 1.
  rewrite List.filter_app, filter_unmarked_workers, app_nil_r,
    (filter_unmarked_all _ Hun).
  cbn [rbind]. rewrite obj_set_twice, <- Hs, obj_set_get by (by rewrite Hs).
  rewrite bind_lift. unfold safeDump. rewrite Hdump.
  reflexivity.
Qed.

Lemma cleanup_undoes_linking_of_workers_witness :
  remove_worker_services
    (set_core (put_compose (Some (Document
       (VObj [("version", VStr "3");
              ("services",
               VObj ([("db", VObj [("image", VStr "postgres:11")])] ++
                     map worker_entry
                       [("pushkinworker7", VObj [("restart", VStr "always")]);
                        ("pushkinworker8", VNull)]))]))))
       (init (Sample.files [] [])))
  = (inr (),
     set_core (put_compose (Some (Document
       (VObj [("version", VStr "3");
              ("services", VObj [("db", VObj [("image", VStr "postgres:11")])])]))))
       (init (Sample.files [] []))).
Proof.
  refine (proj2 (cleanup_undoes_linking_of_workers (init (Sample.files [] []))
                   [("version", VStr "3");
                    ("services", VObj [("db", VObj [("image", VStr "postgres:11")])])]
                   [("db", VObj [("image", VStr "postgres:11")])]
                   [("pushkinworker7", VObj [("restart", VStr "always")]);
                    ("pushkinworker8", VNull)]
                   _ _ _ _ _)).
  - reflexivity.
  - apply (bool_decide_unpack _). vm_compute. exact I.
  - reflexivity.
  - reflexivity.
  - reflexivity.
Defined.

(** ** What no run does when [execSync] ignores its third argument *)

Lemma stays_refl s : stays_unfinished s s.
Proof. by intros H. Qed.

Lemma stays_trans a b c :
  stays_unfinished a b → stays_unfinished b c → stays_unfinished a c.
Proof. unfold stays_unfinished. auto. Qed.

Lemma stays_emit e s :
  is_completion e = false → stays_unfinished s (set_out (fun o => o ++ [e]) s).
Proof.
  intros He. unfold stays_unfinished, unfinished. destruct s; simpl.
  rewrite forallb_app. simpl. rewrite He. simpl.
  by rewrite !andb_true_r.
Qed.

Lemma stays_shell s cmd cwd :
  stays_unfinished s (set_out (fun o => o ++ [Shell cmd cwd]) s).
Proof. by apply stays_emit. Qed.

Lemma stays_defer o s :
  is_core_build o = false → stays_unfinished s (set_pending (fun p => p ++ [o]) s).
Proof.
  intros Ho. unfold stays_unfinished, unfinished. destruct s; simpl.
  rewrite forallb_app. simpl. rewrite Ho. simpl.
  by rewrite !andb_true_r.
Qed.

Lemma stays_set_w f s : stays_unfinished s (set_w f s).
Proof. destruct s. intros H. exact H. Qed.
Lemma stays_set_core f s : stays_unfinished s (set_core f s).
Proof. destruct s. intros H. exact H. Qed.
Lemma stays_set_pkgs f s : stays_unfinished s (set_pkgs f s).
Proof. destruct s. intros H. exact H. Qed.
Lemma stays_set_drawn f s : stays_unfinished s (set_drawn f s).
Proof. destruct s. intros H. exact H. Qed.
Lemma stays_set_apis f s : stays_unfinished s (set_apis f s).
Proof. destruct s. intros H. exact H. Qed.
Lemma stays_set_tasks f s : stays_unfinished s (set_tasks f s).
Proof. destruct s. intros H. exact H. Qed.
Lemma stays_set_newApiControllers f s : stays_unfinished s (set_newApiControllers f s).
Proof. destruct s. intros H. exact H. Qed.
Lemma stays_set_newWebPageIncludes f s : stays_unfinished s (set_newWebPageIncludes f s).
Proof. destruct s. intros H. exact H. Qed.
Lemma stays_set_newWorkerServices f s : stays_unfinished s (set_newWorkerServices f s).
Proof. destruct s. intros H. exact H. Qed.
Lemma stays_set_preppings f s : stays_unfinished s (set_preppings f s).
Proof. destruct s. intros H. exact H. Qed.

Create HintDb stays discriminated.
#[local] Hint Resolve stays_refl stays_shell stays_set_w stays_set_core stays_set_pkgs
  stays_set_drawn stays_set_apis stays_set_tasks stays_set_newApiControllers
  stays_set_newWebPageIncludes stays_set_newWorkerServices stays_set_preppings : stays.

Lemma stays_within_emit e :
  is_completion e = false → within stays_unfinished (emit e).
Proof. intros He s. by apply stays_emit. Qed.

Lemma stays_within_defer o :
  is_core_build o = false → within stays_unfinished (defer o).
Proof. intros Ho s. by apply stays_defer. Qed.

(** One step of a proof that a piece of code keeps a run unfinished. *)
Ltac stays_step :=
  first
    [ solve [auto with stays]
    | apply (within_ret stays_refl)
    | apply (within_throw stays_refl)
    | apply (within_lift stays_refl)
    | apply (within_gets stays_refl)
    | apply stays_within_emit; reflexivity
    | apply stays_within_defer; reflexivity
    | apply within_modify; intros ?; solve [auto with stays]
    | apply (within_bind stays_trans); [|intros ?]
    | apply within_attempt
    | apply (within_try_catch stays_trans); [|intros ?]
    | apply (within_for_each stays_refl stays_trans); intros ?
    | match goal with
      | |- within _ (match ?x with _ => _ end) => destruct x
      | |- within _ (if ?x then _ else _) => destruct x
      | |- within _ (let _ := _ in _) => cbv zeta
      end ].
Ltac stays := repeat stays_step.

Lemma stays_fail reason err : within stays_unfinished (fail reason err).
Proof. unfold fail. stays. Qed.

Lemma stays_startTask : within stays_unfinished startTask.
Proof. unfold startTask. stays. Qed.

Lemma stays_finishTask : within stays_unfinished finishTask.
Proof. unfold finishTask. stays. Qed.

#[local] Hint Resolve stays_fail stays_startTask stays_finishTask : stays.

Lemma stays_includeInModuleList importName listAppendix :
  within stays_unfinished (includeInModuleList importName listAppendix).
Proof. unfold includeInModuleList. stays. Qed.

Lemma stays_exec cmd cwd o :
  is_core_build o = false → within stays_unfinished (exec cmd cwd o).
Proof. intros Ho. unfold exec. stays. by apply stays_within_defer. Qed.

Lemma stays_compose_written data r : within stays_unfinished (compose_written data r).
Proof. unfold compose_written. stays. Qed.

Lemma stays_api_prepped expDir res : within stays_unfinished (api_prepped expDir res).
Proof. unfold api_prepped. stays. Qed.

Lemma stays_web_prepped expDir res : within stays_unfinished (web_prepped expDir res).
Proof. unfold web_prepped. stays. Qed.

Lemma stays_worker_prepped expDir res :
  within stays_unfinished (worker_prepped expDir res).
Proof. unfold worker_prepped. stays. Qed.

#[local] Hint Resolve stays_includeInModuleList stays_compose_written
  stays_api_prepped stays_web_prepped stays_worker_prepped : stays.

Lemma stays_api_fail expDir reason err :
  within stays_unfinished (api_fail expDir reason err).
Proof. unfold api_fail. stays. Qed.

Lemma stays_api_startTask api : within stays_unfinished (api_startTask api).
Proof. unfold api_startTask. stays. Qed.

Lemma stays_api_finishTask api expDir :
  within stays_unfinished (api_finishTask api expDir).
Proof. unfold api_finishTask. stays. Qed.

#[local] Hint Resolve stays_api_fail stays_api_startTask stays_api_finishTask : stays.

Lemma stays_controller_packed api expDir fullContrLoc mountPath res :
  within stays_unfinished (controller_packed api expDir fullContrLoc mountPath res).
Proof. unfold controller_packed. stays. Qed.

Lemma stays_web_packed expDir expConfig res :
  within stays_unfinished (web_packed expDir expConfig res).
Proof. unfold web_packed. stays. Qed.

#[local] Hint Resolve stays_controller_packed stays_web_packed : stays.

Lemma stays_pk_callback c res : within stays_unfinished (pk_callback c res).
Proof. unfold pk_callback. stays. Qed.

#[local] Hint Resolve stays_pk_callback : stays.

Lemma stays_on_pkgdir c r f : within stays_unfinished (on_pkgdir c r f).
Proof. unfold on_pkgdir. stays. Qed.

Lemma stays_move_pack c packedFileName r :
  within stays_unfinished (move_pack c packedFileName r).
Proof. unfold move_pack. stays. Qed.

Lemma stays_npm_packed c stdout : within stays_unfinished (npm_packed c stdout).
Proof. unfold npm_packed. stays. Qed.

Lemma stays_docker_built expDir workerName workerService r :
  within stays_unfinished (docker_built expDir workerName workerService r).
Proof. unfold docker_built. stays. Qed.

#[local] Hint Resolve stays_on_pkgdir stays_move_pack stays_npm_packed
  stays_docker_built : stays.

Lemma stays_cleanUpSync E : within stays_unfinished (cleanUpSync E).
Proof.
  apply (within_cleanUpSync stays_refl stays_trans stays_shell).
  intros s f. apply stays_set_core.
Qed.

#[local] Hint Resolve stays_cleanUpSync : stays.

Section Ignoring.

Variable E : env.
Hypothesis arg3_ignored : arg3 E = Ignored.

Lemma stays_execSync_cb cmd cwd o effect cb :
  (∀ stdout, within stays_unfinished (effect stdout)) →
  within stays_unfinished (execSync_cb E cmd cwd o effect cb).
Proof.
  intros Heffect. unfold execSync_cb. rewrite arg3_ignored. stays; apply Heffect.
Qed.

Lemma stays_rebuild p episode installed :
  within stays_unfinished (rebuild E p episode installed).
Proof. unfold rebuild. apply stays_execSync_cb. intros _. stays. Qed.

Lemma stays_draw_uuid : within stays_unfinished (draw_uuid E).
Proof. unfold draw_uuid. stays. Qed.

Lemma stays_pk_fail c reason err : within stays_unfinished (pk_fail E c reason err).
Proof. unfold pk_fail. stays. Qed.

Hint Resolve stays_rebuild stays_draw_uuid stays_pk_fail : stays.

Lemma stays_linked data r : within stays_unfinished (linked E data r).
Proof. unfold linked. stays. Qed.

Lemma stays_packAndInstall c : within stays_unfinished (packAndInstall E c).
Proof. unfold packAndInstall. stays. Qed.

Lemma stays_manifest_read c r : within stays_unfinished (manifest_read E c r).
Proof. unfold manifest_read. stays. Qed.

Lemma stays_manifest_written c uniqueName packageJson r :
  within stays_unfinished (manifest_written E c uniqueName packageJson r).
Proof. unfold manifest_written. stays. Qed.

Lemma stays_built c uniqueName r : within stays_unfinished (built E c uniqueName r).
Proof.
  unfold built. stays.
Qed.

Lemma stays_pack_moved c uniqueName packedFileName r :
  within stays_unfinished (pack_moved E c uniqueName packedFileName r).
Proof. unfold pack_moved. stays. Qed.

Lemma stays_manifest_unlinked c uniqueName r :
  within stays_unfinished (manifest_unlinked E c uniqueName r).
Proof. unfold manifest_unlinked. stays. Qed.

Lemma stays_manifest_restored c uniqueName r :
  within stays_unfinished (manifest_restored c uniqueName r).
Proof. unfold manifest_restored. stays. Qed.

Hint Resolve stays_linked stays_packAndInstall stays_manifest_read
  stays_manifest_written stays_built stays_pack_moved stays_manifest_unlinked
  stays_manifest_restored : stays.

Lemma stays_prepApi expDir controllerConfigs :
  within stays_unfinished (prepApi E expDir controllerConfigs).
Proof. unfold prepApi. stays. Qed.

Lemma stays_prepWeb expDir expConfig :
  within stays_unfinished (prepWeb E expDir expConfig).
Proof. unfold prepWeb. stays. Qed.

Lemma stays_prepWorker expDir expConfig :
  within stays_unfinished (prepWorker E expDir expConfig).
Proof. unfold prepWorker. stays. Qed.

Hint Resolve stays_prepApi stays_prepWeb stays_prepWorker : stays.

Lemma stays_prep_dir d : within stays_unfinished (prep_dir E d).
Proof. unfold prep_dir. stays. Qed.

Hint Resolve stays_prep_dir : stays.

Lemma stays_prep : within stays_unfinished (prep E).
Proof. unfold prep. stays. Qed.

(** What is pending is no build of the core, so that its callback keeps
    the run unfinished. *)
Lemma stays_resume o r :
  is_core_build o = false → within stays_unfinished (resume E o r).
Proof. intros Ho. destruct o; try discriminate Ho; simpl; auto with stays. Qed.

Lemma unfinished_start x : unfinished (start E x) = true.
Proof.
  unfold start. pose proof (stays_prep (init x)) as H.
  destruct (prep E (init x)) as [[e|[]] s]; simpl in H.
  - apply (stays_emit (Thrown e) s eq_refl). by apply H.
  - by apply H.
Qed.

Lemma unfinished_delete i s :
  unfinished s = true → unfinished (set_pending (delete i) s) = true.
Proof.
  unfold unfinished. destruct s as [? pending ? ? ? ? ? ? ? ?]; simpl.
  intros [Hp Ho]%andb_prop. rewrite Ho, andb_true_r.
  revert i. induction pending as [|o pending IH]; intros i; [done|].
  simpl in Hp. apply andb_prop in Hp as [Ho' Hp].
  destruct i as [|i]; simpl; [done|]. by rewrite Ho', IH.
Qed.

Lemma unfinished_lookup i o s :
  unfinished s = true → pending s !! i = Some o → is_core_build o = false.
Proof.
  unfold unfinished. intros [Hp _]%andb_prop Hi.
  rewrite forallb_forall in Hp.
  apply negb_true_iff, Hp, list_elem_of_In. by eapply list_elem_of_lookup_2.
Qed.

Lemma unfinished_settle x : unfinished (snd x) = true → unfinished (settle x) = true.
Proof.
  destruct x as [[e|[]] s]; simpl; [|done].
  unfold unfinished. destruct s; simpl. intros [_ Ho]%andb_prop.
  rewrite forallb_app, Ho. reflexivity.
Qed.

Lemma unfinished_step i r s : unfinished s = true → unfinished (step E i r s) = true.
Proof.
  intros Hs. unfold step. destruct (pending s !! i) as [o|] eqn:Hi; [|done].
  apply unfinished_settle, stays_resume.
  - by eapply unfinished_lookup.
  - by apply unfinished_delete.
Qed.

Lemma unfinished_run sched : ∀ s,
  unfinished s = true → unfinished (run E sched s) = true.
Proof.
  induction sched as [|[i r] sched IH]; intros s Hs; [done|].
  simpl. by apply IH, unfinished_step.
Qed.

End Ignoring.

(** X10.  With [execSync] as Node has it, ignoring the callback it is given
    in lines 35, 258 and 270, no run of the command ever reports success:
    whatever the files are, whatever order the pending operations complete
    in and however each of them ends, the top-level callback is never
    called without an error, and no build of the core is ever in flight. *)
Theorem success_is_never_reported (E : env) (x : world)
  (sched : list (nat * reply)) :
  arg3 E = Ignored →
  (Callback None ∉ out (run E sched (start E x)))
  ∧ (∀ p episode, CoreBuild p episode ∉ pending (run E sched (start E x))).
Proof.
  intros HE.
  pose proof (unfinished_run E HE sched _ (unfinished_start E x)) as H.
  unfold unfinished in H. apply andb_prop in H as [Hp Ho].
  rewrite forallb_forall in Hp, Ho. split.
  - intros Hin. apply list_elem_of_In, Ho in Hin. discriminate Hin.
  - intros p episode Hin. apply list_elem_of_In, Hp in Hin. discriminate Hin.
Qed.

Lemma success_is_never_reported_witness :
  Callback None ∉ out (run (Sample.env Ignored) (Sample.all_ok 20)
                           (start (Sample.env Ignored) Sample.one_plugin)).
Proof.
  exact (proj1 (success_is_never_reported (Sample.env Ignored) Sample.one_plugin
                  (Sample.all_ok 20) eq_refl)).
Defined.

(** ** Failures of the packaging steps *)

(** X11.  When one of the steps of [packAndInstall] before the restore of
    the manifest fails (the read, the rewrite, the build, the move of the
    tarball, the removal of the rewritten manifest), the top-level callback
    is called once, with an error, and that is all: nothing is started, no
    task is finished, and no file is touched, so that the manifest is left
    as the steps before made it and its backup is not put back. *)
Theorem packaging_failure_is_reported (E : env) (i : nat) (o : op) (r : reply)
  (s : state) (err : error) :
  pending s !! i = Some o →
  before_restore o = true →
  result r = Failed err →
  ∃ err',
    step E i r s
    = set_out (fun l => l ++ [Callback (Some err')]) (set_pending (delete i) s).
Proof.
  intros Hi Ho Hr. unfold step. rewrite Hi.
  destruct o; try discriminate Ho; cbn [resume].
  - unfold manifest_read. rewrite bind_gets, Hr. cbn [JSON_parse].
    unfold pk_fail.
    destruct (pk_callback_error c (new_Error
      ("Failed to parse package.json" +:+ nl +:+ tab +:+ "(" +:+ packDir c +:+ ", "
       +:+ installDir_path E c +:+ "):" +:+ nl +:+ tab +:+ tab
       +:+ render (Err "SyntaxError" "Unexpected token")))
      (set_pending (delete i) s)) as [err' ->].
    by exists err'.
  - unfold manifest_written, on_pkgdir. rewrite Hr.
    unfold mbind, M_bind, mret, M_ret, pk_fail.
    match goal with
    | |- context [pk_callback c (inl ?e) ?s0] =>
        destruct (pk_callback_error c e s0) as [err' ->]
    end.
    by exists err'.
  - unfold built. rewrite Hr. unfold pk_fail.
    match goal with
    | |- context [pk_callback c (inl ?e) ?s0] =>
        destruct (pk_callback_error c e s0) as [err' ->]
    end.
    by exists err'.
  - unfold pack_moved, move_pack. rewrite Hr.
    unfold mbind, M_bind, mret, M_ret, pk_fail.
    match goal with
    | |- context [pk_callback c (inl ?e) ?s0] =>
        destruct (pk_callback_error c e s0) as [err' ->]
    end.
    by exists err'.
  - unfold manifest_unlinked, on_pkgdir. rewrite Hr.
    unfold mbind, M_bind, mret, M_ret, pk_fail.
    match goal with
    | |- context [pk_callback c (inl ?e) ?s0] =>
        destruct (pk_callback_error c e s0) as [err' ->]
    end.
    by exists err'.
Qed.

(** X12.  Where the failure of a step is handled by [fail(..., e)] with no
    [e] in scope (the restore of the manifest in line 53, the write of
    controllers.json in line 228, the write of the compose file in line
    252), the failure is not reported: the top-level callback is not
    called, a [ReferenceError] leaves the callback instead, and with it
    everything that was pending is gone. *)
Theorem unbound_error_is_not_reported (E : env) (i : nat) (o : op) (r : reply)
  (s : state) (err : error) :
  pending s !! i = Some o →
  fails_unbound o = true →
  result r = Failed err →
  step E i r s
  = set_pending (fun _ => [])
      (set_out (fun l => l ++ [Uncaught ReferenceError_e]) (set_pending (delete i) s)).
Proof.
  intros Hi Ho Hr. unfold step. rewrite Hi.
  destruct o; try discriminate Ho; cbn [resume].
  - unfold manifest_restored, on_pkgdir. rewrite Hr. reflexivity.
  - unfold linked. rewrite Hr. reflexivity.
  - unfold compose_written. rewrite Hr. reflexivity.
Qed.

Lemma packaging_failure_is_reported_witness :
  ∃ err',
    step (Sample.env Ignored) 0 (Reply (Failed ENOENT) (fun _ => Done ""))
      (set_pending (fun _ => [NpmRunBuild
                                (Pk "exps/exp1/web" FrontEndTemp
                                    (KWebPage "exps/exp1" (Sample.config "exp1" [])))
                                "pushkinComponent0c"])
         (init Sample.one_plugin))
    = set_out (fun l => l ++ [Callback (Some err')])
        (set_pending (delete 0)
           (set_pending (fun _ => [NpmRunBuild
                                     (Pk "exps/exp1/web" FrontEndTemp
                                         (KWebPage "exps/exp1" (Sample.config "exp1" [])))
                                     "pushkinComponent0c"])
              (init Sample.one_plugin))).
Proof.
  exact (packaging_failure_is_reported (Sample.env Ignored) 0
           (NpmRunBuild (Pk "exps/exp1/web" FrontEndTemp
                            (KWebPage "exps/exp1" (Sample.config "exp1" [])))
                        "pushkinComponent0c")
           (Reply (Failed ENOENT) (fun _ => Done ""))
           (set_pending (fun _ => [NpmRunBuild
                                     (Pk "exps/exp1/web" FrontEndTemp
                                         (KWebPage "exps/exp1" (Sample.config "exp1" [])))
                                     "pushkinComponent0c"])
              (init Sample.one_plugin))
           ENOENT eq_refl eq_refl eq_refl).
Defined.

Lemma unbound_error_is_not_reported_witness :
  out (step (Sample.env Ignored) 0 (Reply (Failed EACCES) (fun _ => Done ""))
         (set_pending (fun _ => [WriteControllers (VArr [])]) (init Sample.one_plugin)))
  = [Uncaught ReferenceError_e].
Proof.
  rewrite (unbound_error_is_not_reported (Sample.env Ignored) 0
             (WriteControllers (VArr []))
             (Reply (Failed EACCES) (fun _ => Done ""))
             (set_pending (fun _ => [WriteControllers (VArr [])]) (init Sample.one_plugin))
             EACCES eq_refl eq_refl eq_refl).
  reflexivity.
Defined.

(** ** Descriptors *)

(** X13.  A descriptor that loads but whose [apiControllers] is no array is
    not skipped as one that fails to load is: the loop of line 295 throws
    at that plugin, out of the exported function, with the plugin's first
    task counted and the closure of its [prepApi] call made; the callback
    is not called, and the directories after it are not looked at. *)
Theorem descriptor_without_controllers_throws (E : env) (d : rootent)
  (expConfig : object) (rest : list rootent) (s : state) :
  ent_is_dir d = true →
  load (ent_config d) = inr (VObj expConfig) →
  match obj_get "apiControllers" expConfig with VArr _ => False | _ => True end →
  ∃ e,
    for_each (prep_dir E) (d :: rest) s
    = (inl e, set_apis (fun l => l ++ [ApiClosure [] []]) (set_tasks push_task s)).
Proof.
  intros Hd Hl Hc.
  assert (∃ e, prep_dir E d s
               = (inl e, set_apis (fun l => l ++ [ApiClosure [] []])
                           (set_tasks push_task s))) as [e He].
  { unfold prep_dir. rewrite Hd, Hl.
    cbn [negb]. unfold prepApi, attempt, startTask. run_M.
    destruct (obj_get "apiControllers" expConfig); try done; by eexists. }
  exists e. cbn [for_each]. by apply bind_throws.
Qed.

Lemma descriptor_without_controllers_throws_witness :
  ∃ e,
    for_each (prep_dir (Sample.env Ignored))
      [RootEnt "exp0" true (Some (Document (VObj [("shortName", VStr "exp0")])));
       Sample.plugin "exp1"]
      (init Sample.one_plugin)
    = (inl e, set_apis (fun l => l ++ [ApiClosure [] []])
                (set_tasks push_task (init Sample.one_plugin))).
Proof.
  exact (descriptor_without_controllers_throws (Sample.env Ignored)
           (RootEnt "exp0" true (Some (Document (VObj [("shortName", VStr "exp0")]))))
           [("shortName", VStr "exp0")] [Sample.plugin "exp1"]
           (init Sample.one_plugin) eq_refl eq_refl I).
Defined.

(** ** Generated names *)

Lemma has_char_undashed u : has_char "-" (undashed u) = false.
Proof.
  induction u as [|a r IH]; [done|]. simpl.
  destruct (Ascii.eqb a "-") eqn:Ha; [done|]. simpl. by rewrite Ha.
Qed.

Lemma length_append (s t : string) :
  String.length (s +:+ t) = String.length s + String.length t.
Proof.
  induction s as [|a r IH]; [done|]. rewrite append_cons. simpl. by rewrite IH.
Qed.

Lemma length_undashed u :
  String.length (undashed u) = length (List.filter negb (dash_mask u)).
Proof.
  induction u as [|a r IH]; [done|]. simpl.
  destruct (Ascii.eqb a "-"); simpl; by rewrite IH.
Qed.

(** X14.  The names that lines 25 and 193 generate have no dash in them,
    whatever [uuid()] returns; and from a value laid out as a uuid the name
    is the prefix followed by 32 characters. *)
Theorem generated_names_have_no_dash (u : string) :
  has_char "-" (component_name u) = false
  ∧ has_char "-" (worker_name u) = false
  ∧ (uuid_shaped u = true →
     String.length (component_name u) = 48
     ∧ String.length (worker_name u) = 45).
Proof.
  unfold component_name, worker_name.
  rewrite !has_char_app, !uuid_hex_undashed, !has_char_undashed.
  repeat split; try reflexivity.
  - rewrite length_append, length_undashed.
    unfold uuid_shaped in H. apply bool_decide_eq_true in H. by rewrite H.
  - rewrite length_append, length_undashed.
    unfold uuid_shaped in H. apply bool_decide_eq_true in H. by rewrite H.
Qed.

Lemma generated_names_have_no_dash_witness :
  String.length (component_name "110ec58a-a0f2-4ac4-8393-c866d813b8d1") = 48.
Proof.
  exact (proj1 (proj2 (proj2 (generated_names_have_no_dash
                                "110ec58a-a0f2-4ac4-8393-c866d813b8d1"))
                      eq_refl)).
Defined.

(** ** The steps of packAndInstall after the pack *)



(** ** prepApi *)

Lemma alter_lookup_insert {A} (f : A → A) (l : list A) : ∀ i x,
  l !! i = Some x → alter f i l = <[i := f x]> l.
Proof.
  induction l as [|a l IH]; intros [|i] x Hi; try done.
  - simpl in Hi. by injection Hi as ->.
  - simpl in *. f_equal. by apply (IH i x).
Qed.

Lemma packable_backup (p : gmap string pkgdir) loc d f dir :
  p !! loc = Some d →
  packable (<[loc := PkgDir (manifest d) f (tarballs d) (writable d)]> p) dir
  = packable p dir.
Proof.
  intros Hd. unfold packable. destruct (decide (dir = loc)) as [->|Hne].
  - by rewrite lookup_insert_eq, Hd.
  - by rewrite lookup_insert_ne.
Qed.

Lemma manifest_backup (p : gmap string pkgdir) loc d f dir :
  p !! loc = Some d →
  (<[loc := PkgDir (manifest d) f (tarballs d) (writable d)]> p !! dir) ≫= manifest
  = (p !! dir) ≫= manifest.
Proof.
  intros Hd. destruct (decide (dir = loc)) as [->|Hne].
  - by rewrite lookup_insert_eq, Hd.
  - by rewrite lookup_insert_ne.
Qed.

(** The body of the loop of line 158 for a controller whose source
    directory can be backed up. *)
Lemma controller_started E expDir api controller s t :
  has_location controller = true →
  packable (pkgs (w s)) (packDir (controller_pk api expDir controller)) = true →
  apis s !! api = Some (ApiClosure t []) →
  ∃ d f,
    pkgs (w s) !! packDir (controller_pk api expDir controller) = Some d
    ∧ manifest d = Some f
    ∧ (location ← lift (prop controller "location");
       fullContrLoc ← lift (join_checked expDir location);
       mountPath ← lift (prop controller "mountPath");
       api_startTask api;;
       packAndInstall E
         (Pk fullContrLoc ApiTemp (KController api expDir fullContrLoc mountPath))) s
      = (inr (),
         set_pending (fun p => p ++ [ReadManifest (controller_pk api expDir controller)])
           (set_pkgs (insert (packDir (controller_pk api expDir controller))
                        (PkgDir (manifest d) (Some f) (tarballs d) (writable d)))
              (set_apis (fun l => <[api := ApiClosure (t ++ [true]) []]> l) s))).
Proof.
  intros [Hdef Hloc]%andb_prop Hpack Hapi.
  unfold packable in Hpack. unfold controller_pk in *. cbn [packDir] in *.
  destruct (field controller "location") as [| | | |location| |] eqn:Hf; try done.
  cbn [to_str] in *.
  destruct (pkgs (w s) !! path_join expDir location) as [d|] eqn:Hd; [|done].
  destruct (manifest d) as [f|] eqn:Hm; [|done].
  exists d, f. split; [done|]. split; [done|].
  rewrite !bind_lift, (prop_defined _ _ Hdef), Hf. cbn [join_checked].
  rewrite !bind_lift, (prop_defined _ _ Hdef).
  unfold api_startTask, packAndInstall. run_M. rewrite Hd. unfold copy_manifest.
  rewrite Hm, Hpack. simpl.
  destruct s as [[c p r] ? ? ap ? ? ? ? ? ?]. simpl in *.
  unfold set_pending, set_pkgs, set_apis, set_w. simpl.
  by rewrite (alter_lookup_insert _ _ _ _ Hapi).
Qed.

Lemma backed_up_backup (p : gmap string pkgdir) loc d f dir :
  p !! loc = Some d → manifest d = Some f →
  dir = loc ∨ backed_up p dir →
  backed_up (<[loc := PkgDir (manifest d) (Some f) (tarballs d) (writable d)]> p) dir.
Proof.
  intros Hd Hm Hdir. unfold backed_up.
  destruct (decide (dir = loc)) as [->|Hne].
  - rewrite lookup_insert_eq. simpl. by rewrite Hm.
  - rewrite lookup_insert_ne by done. by destruct Hdir.
Qed.

Lemma forallb_pointwise {A} (f g : A → bool) (l : list A) :
  (∀ x, f x = g x) → forallb f l = forallb g l.
Proof. intros H. induction l as [|x l IH]; [done|]. simpl. by rewrite H, IH. Qed.

(** The loop of line 158: one task and one packaging for each controller,
    in the order of the array. *)
Lemma controllers_loop E expDir api (l : list value) : ∀ s t,
  forallb has_location l = true →
  forallb (fun c => packable (pkgs (w s)) (packDir (controller_pk api expDir c))) l
  = true →
  apis s !! api = Some (ApiClosure t []) →
  ∃ s',
    for_each (fun controller =>
      location ← lift (prop controller "location");
      fullContrLoc ← lift (join_checked expDir location);
      mountPath ← lift (prop controller "mountPath");
      api_startTask api;;
      packAndInstall E
        (Pk fullContrLoc ApiTemp (KController api expDir fullContrLoc mountPath))) l s
    = (inr (), s')
    ∧ pending s' = pending s ++ map (fun c => ReadManifest (controller_pk api expDir c)) l
    ∧ apis s' = <[api := ApiClosure (t ++ repeat true (length l)) []]> (apis s)
    ∧ tasks s' = tasks s ∧ out s' = out s ∧ core (w s') = core (w s)
    ∧ (∀ dir, (pkgs (w s') !! dir) ≫= manifest = (pkgs (w s) !! dir) ≫= manifest)
    ∧ (∀ dir, packable (pkgs (w s')) dir = packable (pkgs (w s)) dir)
    ∧ (∀ dir, dir ∈ map (fun c => packDir (controller_pk api expDir c)) l
              ∨ backed_up (pkgs (w s)) dir →
              backed_up (pkgs (w s')) dir).
Proof.
  induction l as [|c l IH]; intros s t Hloc Hpack Hapi.
  - exists s. cbn [for_each map length repeat]. rewrite !app_nil_r.
    rewrite (list_insert_id _ _ _ Hapi).
    repeat (split; [done|]). intros dir [Hin|H]; [|done].
    by apply elem_of_nil in Hin.
  - cbn [forallb] in Hloc, Hpack.
    apply andb_prop in Hloc as [Hc Hloc]. apply andb_prop in Hpack as [Hpc Hpack].
    destruct (controller_started E expDir api c s t Hc Hpc Hapi)
      as (d & f & Hd & Hm & Hstep).
    set (s1 := set_pending (fun p => p ++ [ReadManifest (controller_pk api expDir c)])
                 (set_pkgs (insert (packDir (controller_pk api expDir c))
                              (PkgDir (manifest d) (Some f) (tarballs d) (writable d)))
                    (set_apis (fun l => <[api := ApiClosure (t ++ [true]) []]> l) s)))
      in *.
    assert (pkgs (w s1)
            = <[packDir (controller_pk api expDir c) :=
                  PkgDir (manifest d) (Some f) (tarballs d) (writable d)]> (pkgs (w s)))
      as Hp1 by (by destruct s as [[c0 p0 r0] ? ? ? ? ? ? ? ? ?]).
    destruct (IH s1 (t ++ [true])) as (s' & Hrun & Hpend & Hapis & Ht & Ho & Hc' & Hman & Hpk & Hbk).
    + exact Hloc.
    + rewrite <- Hpack. apply forallb_pointwise. intros c'. rewrite Hp1.
      by apply packable_backup.
    + subst s1. destruct s as [[c0 p0 r0] ? ? ap ? ? ? ? ? ?]. simpl in *.
      apply list_lookup_insert_eq. by eapply lookup_lt_Some.
    + exists s'. split.
      { cbn [for_each]. by rewrite (bind_run _ _ _ _ _ Hstep). }
      rewrite Hpend, Hapis, Ht, Ho, Hc'.
      split.
      { subst s1. destruct s as [[c0 p0 r0] ? ? ? ? ? ? ? ? ?]. simpl.
        by rewrite <- app_assoc. }
      split.
      { subst s1. destruct s as [[c0 p0 r0] ? ? ? ? ? ? ? ? ?]. simpl.
        rewrite list_insert_insert_eq, <- app_assoc. reflexivity. }
      split; [by destruct s as [[c0 p0 r0] ? ? ? ? ? ? ? ? ?]|].
      split; [by destruct s as [[c0 p0 r0] ? ? ? ? ? ? ? ? ?]|].
      split; [by destruct s as [[c0 p0 r0] ? ? ? ? ? ? ? ? ?]|].
      split; [|split].
      * intros dir. rewrite Hman, Hp1. by apply manifest_backup.
      * intros dir. rewrite Hpk, Hp1. by apply packable_backup.
      * intros dir Hdir. apply Hbk. rewrite Hp1.
        cbn [map] in Hdir. rewrite elem_of_cons in Hdir.
        destruct Hdir as [[->|Hin]|Hb].
        -- right. apply backed_up_backup; auto.
        -- by left.
        -- right. apply backed_up_backup; auto.
Qed.

(** X16.  [prepApi] on controllers that are there, each with a string for
    its [location] and a source directory whose package.json can be
    copied: every controller gets one task of the call's own counter and
    one packaging, started in the order of the array and bound for the
    staging directory of the api; the counter of the exported function is
    not touched, nothing is reported yet and no subprocess is run; every
    package.json is as it was, and each controller's has its backup beside
    it. *)
Theorem prepApi_starts_each_controller (E : env) (expDir : string)
  (l : list value) (s : state) :
  forallb has_location l = true →
  forallb (fun c => packable (pkgs (w s)) (packDir (controller_pk 0 expDir c))) l = true →
  ∃ s',
    prepApi E expDir (VArr l) s = (inr (), s')
    ∧ pending s'
      = pending s ++ map (fun c => ReadManifest (controller_pk (length (apis s)) expDir c)) l
    ∧ apis s' = apis s ++ [ApiClosure (repeat true (length l)) []]
    ∧ tasks s' = tasks s ∧ out s' = out s ∧ core (w s') = core (w s)
    ∧ (∀ dir, (pkgs (w s') !! dir) ≫= manifest = (pkgs (w s) !! dir) ≫= manifest)
    ∧ (∀ c, c ∈ l → backed_up (pkgs (w s')) (packDir (controller_pk 0 expDir c))).
Proof.
  intros Hloc Hpack.
  set (s0 := set_apis (fun l => l ++ [ApiClosure [] []]) s).
  destruct (controllers_loop E expDir (length (apis s)) l s0 [] Hloc)
    as (s' & Hrun & Hpend & Hapis & Ht & Ho & Hc & Hman & _ & Hbk).
  - by destruct s as [[c0 p0 r0] ? ? ? ? ? ? ? ? ?].
  - subst s0. destruct s as [[c0 p0 r0] ? ? ap ? ? ? ? ? ?]. simpl.
    by apply list_lookup_middle.
  - exists s'. split.
    { unfold prepApi. rewrite bind_gets.
      unfold mbind at 1, M_bind at 1, modify at 1. exact Hrun. }
    rewrite Hpend, Hapis, Ht, Ho, Hc. subst s0.
    split; [by destruct s as [[c0 p0 r0] ? ? ? ? ? ? ? ? ?]|].
    split.
    { destruct s as [[c0 p0 r0] ? ? ap ? ? ? ? ? ?]. simpl.
      rewrite (insert_app_r_alt ap _ (length ap)) by lia.
      by rewrite Nat.sub_diag. }
    split; [by destruct s as [[c0 p0 r0] ? ? ? ? ? ? ? ? ?]|].
    split; [by destruct s as [[c0 p0 r0] ? ? ? ? ? ? ? ? ?]|].
    split; [by destruct s as [[c0 p0 r0] ? ? ? ? ? ? ? ? ?]|].
    split.
    + intros dir. rewrite Hman. by destruct s as [[c0 p0 r0] ? ? ? ? ? ? ? ? ?].
    + intros c Hin. apply Hbk. left.
      apply list_elem_of_fmap. by exists c.
Qed.

Lemma prepApi_starts_each_controller_witness :
  ∃ s',
    prepApi (Sample.env Ignored) "exps/exp2"
      (VArr [Sample.controller "a" "/a"; Sample.controller "b" "/b"])
      (init (Sample.files [] (Sample.sources "exp2" ["a"; "b"])))
    = (inr (), s')
    ∧ pending s'
      = [ReadManifest (controller_pk 0 "exps/exp2" (Sample.controller "a" "/a"));
         ReadManifest (controller_pk 0 "exps/exp2" (Sample.controller "b" "/b"))]
    ∧ apis s' = [ApiClosure [true; true] []].
Proof.
  destruct (prepApi_starts_each_controller (Sample.env Ignored) "exps/exp2"
              [Sample.controller "a" "/a"; Sample.controller "b" "/b"]
              (init (Sample.files [] (Sample.sources "exp2" ["a"; "b"]))))
    as (s' & Hrun & Hpend & Hapis & _).
  - reflexivity.
  - vm_compute. reflexivity.
  - exists s'. split; [exact Hrun|]. split; [exact Hpend|exact Hapis].
Defined.

(** ** Linking *)

(** X17.  The linking is not undone when it fails half way.  When the
    write of controllers.json has succeeded and the compose file then
    fails to load, the top-level callback is called once, with
    [Failed to load main docker compose file] and the error; by then
    controllers.json holds the new list and the module list has the web
    pages in it; the compose file is as it was, no write of it is started
    and the core is not rebuilt. *)
Theorem failed_linking_is_not_undone (E : env) (data : value) (r : reply)
  (s : state) (stdout text : string) (e : error) :
  result r = Done stdout →
  experiments_js (core (w s)) = Some text →
  load (compose (core (w s))) = inl e →
  linked E data r s
  = (inr (),
     set_out (fun o => o ++ [Callback (Some (new_Error
                ("Failed to load main docker compose file: " +:+ render e)))])
       (set_core (put_experiments_js
                    (Some (include_all (newWebPageIncludes s) text)))
          (set_core (put_controllers_json (Some (Document data))) s))).
Proof.
  intros Hr Ht Hl. unfold linked. rewrite Hr.
  unfold mbind at 1, M_bind at 1, modify at 1.
  set (s1 := set_core (put_controllers_json (Some (Document data))) s).
  assert (experiments_js (core (w s1)) = Some text) as Ht1
    by (by destruct s as [[c p r0] ? ? ? ? ? ? ? ? ?]).
  assert (newWebPageIncludes s1 = newWebPageIncludes s) as Hn
    by (by destruct s as [[c p r0] ? ? ? ? ? ? ? ? ?]).
  pose proof (include_loop (newWebPageIncludes s) s1 text Ht1) as Hloop.
  unfold mbind at 1, M_bind at 1, attempt at 1.
  rewrite bind_gets, Hn, Hloop.
  set (s2 := set_core _ s1).
  assert (load (compose (core (w s2))) = inl e) as Hl2
    by (by destruct s as [[c p r0] ? ? ? ? ? ? ? ? ?]).
  unfold mbind at 1, M_bind at 1, attempt at 1.
  rewrite bind_gets. unfold lift. rewrite Hl2.
  reflexivity.
Qed.

Lemma failed_linking_is_not_undone_witness :
  controllers_json (core (w (snd
    (linked (Sample.env Ignored) (VArr []) Sample.ok
       (set_core (put_compose (Some Unparsable)) (init (Sample.files [] [])))))))
  = Some (Document (VArr [])).
Proof.
  rewrite (failed_linking_is_not_undone (Sample.env Ignored) (VArr []) Sample.ok
             (set_core (put_compose (Some Unparsable)) (init (Sample.files [] [])))
             ("exp-1.0.0.tgz" +:+ nl)
             ("import pushkinComponent0b from 'pushkinComponent0b';" +:+ nl +:+
              "export default [" +:+ nl +:+
              tab +:+ "{ fullName: 'Old', module: pushkinComponent0b }," +:+ nl +:+
              "];")
             (Err "SyntaxError" "Unexpected token")
             eq_refl eq_refl eq_refl).
  reflexivity.
Defined.

Lemma has_char_undashed_of c u : has_char c u = false → has_char c (undashed u) = false.
Proof.
  induction u as [|a r IH]; [done|]. simpl.
  intros [Ha Hr]%orb_false_elim.
  destruct (Ascii.eqb a "-"); simpl; [by apply IH|]. by rewrite Ha, IH.
Qed.

Lemma finishTask_keeps_includes s :
  newWebPageIncludes (snd (finishTask s)) = newWebPageIncludes s.
Proof.
  unfold finishTask. run_M. destruct s; simpl.
  by destruct (drained _).
Qed.

(** X18.  The entry that line 184 makes for a web page keeps to its line,
    as the comment above it asks and as the module list needs to be read
    back: when the value of [uuid()] has no space or line break in it and
    the five properties of the descriptor print without a line break, the
    callback of [prepWeb] hands on the generated module name free of
    spaces and line breaks and an entry free of line breaks. *)
Theorem web_page_entry_is_one_line (expDir : string) (expConfig : object)
  (u : string) (s : state) :
  has_char " " u = false →
  has_char "010" u = false →
  forallb (fun k => negb (has_char "010" (to_str (obj_get k expConfig)))) entry_fields
  = true →
  newWebPageIncludes (snd (web_packed expDir (VObj expConfig) (inr (component_name u)) s))
  = newWebPageIncludes s ++ [(component_name u, web_entry expConfig (component_name u))]
  ∧ one_line (component_name u, web_entry expConfig (component_name u)) = true.
Proof.
  intros Hsp Hnl Hf. split.
  - unfold web_packed. rewrite !bind_lift. cbn [prop]. rewrite !bind_lift.
    unfold web_prepped. unfold mbind, M_bind, modify.
    rewrite finishTask_keeps_includes. by destruct s.
  - assert (has_char " " (component_name u) = false) as Hname_sp.
    { unfold component_name. rewrite has_char_app, uuid_hex_undashed.
      by rewrite (has_char_undashed_of _ _ Hsp). }
    assert (has_char "010" (component_name u) = false) as Hname_nl.
    { unfold component_name. rewrite has_char_app, uuid_hex_undashed.
      by rewrite (has_char_undashed_of _ _ Hnl). }
    unfold one_line. cbn [fst snd]. rewrite Hname_sp, Hname_nl. cbn [negb andb].
    unfold entry_fields in Hf. cbn [forallb] in Hf.
    repeat (apply andb_prop in Hf as [?%negb_true_iff Hf]).
    unfold web_entry. rewrite !has_char_app.
    repeat match goal with H : has_char _ _ = false |- _ => rewrite H; clear H end.
    reflexivity.
Qed.

Lemma web_page_entry_is_one_line_witness :
  one_line
    (component_name "110ec58a-a0f2-4ac4-8393-c866d813b8d1",
     web_entry (own_entries (Sample.config "exp1" []))
               (component_name "110ec58a-a0f2-4ac4-8393-c866d813b8d1"))
  = true.
Proof.
  exact (proj2 (web_page_entry_is_one_line "exps/exp1"
                  (own_entries (Sample.config "exp1" []))
                  "110ec58a-a0f2-4ac4-8393-c866d813b8d1"
                  (init Sample.one_plugin) eq_refl eq_refl eq_refl)).
Defined.

(** ** The module list on one line *)

Lemma has_char_trim_start c s : has_char c s = false → has_char c (trim_start s) = false.
Proof.
  induction s as [|a r IH]; [done|]. intros H. simpl.
  destruct (is_space a); [|exact H].
  simpl in H. apply orb_false_elim in H as [_ Hr]. by apply IH.
Qed.

Lemma has_char_trim_end c s : has_char c s = false → has_char c (trim_end s) = false.
Proof.
  induction s as [|a r IH]; [done|]. simpl.
  intros [Ha Hr]%orb_false_elim. specialize (IH Hr).
  destruct (trim_end r) as [|b r'].
  - destruct (is_space a); [done|]. simpl. by rewrite Ha.
  - change (has_char c (String a (String b r')))
      with (Ascii.eqb a c || has_char c (String b r')).
    by rewrite Ha, IH.
Qed.

(** X19.  [includeInModuleList] drops the last line of the file whatever
    it holds.  On a module list without a line break, such as
    [export default [];] on one line or an empty file, the whole text is
    that last line: the call completes and leaves the import, an empty
    line, the entry and the closing bracket, and nothing of what the file
    held. *)
Theorem one_line_module_list_is_lost (importName listAppendix text : string)
  (s : state) :
  has_char "010" text = false →
  experiments_js (core (w s)) = Some text →
  includeInModuleList importName listAppendix s
  = (inr (),
     set_core (put_experiments_js (Some
       ("import " +:+ importName +:+ " from '" +:+ importName +:+ "';" +:+ nl +:+
        nl +:+ tab +:+ listAppendix +:+ "," +:+ nl +:+ "];"))) s).
Proof.
  intros Hnl Ht. unfold includeInModuleList. rewrite bind_gets, Ht.
  unfold modify. do 4 f_equal.
  unfold includeInModuleList_text.
  rewrite (split_on_none "010" (trim text))
    by (by apply has_char_trim_end, has_char_trim_start).
  reflexivity.
Qed.

Lemma one_line_module_list_is_lost_witness :
  experiments_js (core (w (snd
    (includeInModuleList "pA" "{ module: pA }"
       (set_core (put_experiments_js (Some "export default [];"))
                 (init (Sample.files [] [])))))))
  = Some ("import pA from 'pA';" +:+ nl +:+ nl +:+ tab +:+ "{ module: pA }," +:+ nl +:+ "];").
Proof.
  rewrite (one_line_module_list_is_lost "pA" "{ module: pA }" "export default [];"
             (set_core (put_experiments_js (Some "export default [];"))
                       (init (Sample.files [] [])))
             eq_refl eq_refl).
  reflexivity.
Defined.
